(** * Hospital Appointment System: a shallow embedding of [hospital_api.py]

    The six request handlers of the service are embedded as functions in a
    state-and-exception monad over the module's globals: the appointment
    dictionary [APPOINTMENTS] and the state of Python's [random] module.
    Patient and doctor directories are the module-level constants of the
    source. *)

From Stdlib Require Import ZArith NArith List Ascii String.
From Stdlib Require Import Decimal DecimalFacts DecimalString DecimalZ DecimalPos SpecFloat.
From stdpp Require Import gmap strings list fin_maps.

Local Open Scope string_scope.
Local Open Scope Z_scope.

(** ** Python values used by the handlers *)

(** [str(n)] for an [int]: decimal digits, a leading minus sign for negative
    numbers, no leading zeros. *)
Definition str (n : Z) : string := NilZero.string_of_int (Z.to_int n).

(** A Python [str] is held as a Rocq [string]: the bytes of its UTF-8
    encoding, so an ASCII character is one byte below 128 and every other
    character a run of bytes from 128 up. *)

(** [str.lower] as [view_doctors] uses it, to compare with the specialties of
    the directory: the letters [A]..[Z] go to [a]..[z] and every other byte
    is kept. On ASCII text this is [str.lower]. On other text [str.lower]
    also rewrites non-ASCII characters, but always into text that still has
    a non-ASCII character, the Kelvin sign U+212A apart, which becomes [k];
    no specialty of the directory has a [k], so the comparison comes out the
    same. *)
Definition lower_ascii (c : ascii) : ascii :=
  let n := nat_of_ascii c in
  if ((65 <=? n) && (n <=? 90))%nat then ascii_of_nat (n + 32) else c.

Fixpoint lower (s : string) : string :=
  match s with
  | EmptyString => EmptyString
  | String c s' => String (lower_ascii c) (lower s')
  end.

(** The upper-case and the case-swapped form of one ASCII character. *)
Definition upper_ascii (c : ascii) : ascii :=
  let n := nat_of_ascii c in
  if ((97 <=? n) && (n <=? 122))%nat then ascii_of_nat (n - 32) else c.

Definition swapcase_ascii (c : ascii) : ascii :=
  let n := nat_of_ascii c in
  if ((65 <=? n) && (n <=? 90))%nat then ascii_of_nat (n + 32)
  else if ((97 <=? n) && (n <=? 122))%nat then ascii_of_nat (n - 32)
  else c.

Fixpoint map_string (f : ascii -> ascii) (s : string) : string :=
  match s with
  | EmptyString => EmptyString
  | String c s' => String (f c) (map_string f s')
  end.

Definition is_ascii_char (c : ascii) : bool := (nat_of_ascii c <? 128)%nat.

Fixpoint is_ascii (s : string) : bool :=
  match s with
  | EmptyString => true
  | String c s' => is_ascii_char c && is_ascii s'
  end.

(** The non-ASCII characters that [str.upper] turns into ASCII text, by the
    bytes of their encoding: U+00DF (sharp s, C3 9F), U+0131 (dotless i,
    C4 B1), U+017F (long s, C5 BF), and the ligatures U+FB00 to U+FB06
    (EF AC 80 to EF AC 86). *)
Definition upper_two_bytes (b1 b2 : ascii) : option string :=
  if Ascii.eqb b1 "195" && Ascii.eqb b2 "159" then Some "SS"
  else if Ascii.eqb b1 "196" && Ascii.eqb b2 "177" then Some "I"
  else if Ascii.eqb b1 "197" && Ascii.eqb b2 "191" then Some "S"
  else None.

Definition upper_three_bytes (b1 b2 b3 : ascii) : option string :=
  if Ascii.eqb b1 "239" && Ascii.eqb b2 "172" then
    if Ascii.eqb b3 "128" then Some "FF"
    else if Ascii.eqb b3 "129" then Some "FI"
    else if Ascii.eqb b3 "130" then Some "FL"
    else if Ascii.eqb b3 "131" then Some "FFI"
    else if Ascii.eqb b3 "132" then Some "FFL"
    else if Ascii.eqb b3 "133" then Some "ST"
    else if Ascii.eqb b3 "134" then Some "ST"
    else None
  else None.

(** [str.swapcase] sends the same characters to the same text, and the
    Kelvin sign U+212A (E2 84 AA), an upper-case character, to [k]. *)
Definition swapcase_three_bytes (b1 b2 b3 : ascii) : option string :=
  if Ascii.eqb b1 "226" && Ascii.eqb b2 "132" && Ascii.eqb b3 "170" then Some "k"
  else upper_three_bytes b1 b2 b3.

(** A case transformation of UTF-8 text, character by character: [ascii] on
    the ASCII characters, [two] and [three] on the listed characters of two
    and three bytes. The result is [None] as soon as the text has a
    character that is not listed: what Python does with it is not
    modelled. *)
Fixpoint map_text (ascii : Ascii.ascii -> Ascii.ascii)
    (two : Ascii.ascii -> Ascii.ascii -> option string)
    (three : Ascii.ascii -> Ascii.ascii -> Ascii.ascii -> option string)
    (s : string) : option string :=
  match s with
  | EmptyString => Some EmptyString
  | String b1 s1 =>
      if is_ascii_char b1
      then option_map (String (ascii b1)) (map_text ascii two three s1)
      else
        match s1 with
        | EmptyString => None
        | String b2 s2 =>
            match two b1 b2 with
            | Some t => option_map (append t) (map_text ascii two three s2)
            | None =>
                match s2 with
                | EmptyString => None
                | String b3 s3 =>
                    match three b1 b2 b3 with
                    | Some t => option_map (append t) (map_text ascii two three s3)
                    | None => None
                    end
                end
            end
        end
  end.

(** [str.upper] and [str.swapcase] on text made of ASCII characters and of
    the characters listed above; [None] on any other text. *)
Definition upper : string -> option string :=
  map_text upper_ascii upper_two_bytes upper_three_bytes.

Definition swapcase : string -> option string :=
  map_text swapcase_ascii upper_two_bytes swapcase_three_bytes.

(** A Python [float] is an IEEE 754 binary64 value; the handlers only compare
    it with zero and hand it back. *)
Definition float : Type := spec_float.
Definition float_of_int_0 : float := S754_zero false.

(** ** Allowed data sets *)

Module DoctorDetails.
Record t := mk { name : string; specialty : string }.
End DoctorDetails.

Definition ALLOWED_PATIENTS : gset string :=
  {[ "P001"; "P002"; "P003"; "P004" ]}.

(** A [dict] literal keeps its insertion order, which [.items()] exposes. *)
Definition ALLOWED_DOCTORS : list (string * DoctorDetails.t) :=
  [ ("D101", DoctorDetails.mk "Dr. Alice" "Cardiologist");
    ("D102", DoctorDetails.mk "Dr. Bob" "Dermatologist");
    ("D103", DoctorDetails.mk "Dr. Clara" "Neurologist");
    ("D104", DoctorDetails.mk "Dr. David" "Orthopedic") ].

(** [k in d] for a [dict] kept as an association list. *)
Definition dict_contains {V : Type} (k : string) (d : list (string * V)) : bool :=
  existsb (fun kv => String.eqb k (fst kv)) d.

(** ** Request models *)

Module Patient.
Record t := mk { patient_id : string }.
End Patient.

Module DoctorSpecialty.
Record t := mk { specialty : string }.
End DoctorSpecialty.

Module AppointmentBooking.
Record t := mk { patient_id : string; doctor_id : string; date : string }.
End AppointmentBooking.

Module RescheduleAppointment.
Record t := mk { appointment_id : string; new_date : string }.
End RescheduleAppointment.

Module Payment.
Record t := mk { patient_id : string; amount : float }.
End Payment.

(** ** Stored records and responses *)

(** The value stored under an appointment identifier. *)
Module Appointment.
Record t := mk
  { patient_id : string; doctor_id : string; date : string; slot : string }.
Definition set_date (d : string) (a : t) : t :=
    mk (patient_id a) (doctor_id a) d (slot a).
Definition set_slot (s : string) (a : t) : t :=
    mk (patient_id a) (doctor_id a) (date a) s.
End Appointment.

(** The validation handlers answer with a message and, when the identifier
    is known, the identifier itself. *)
Module PatientValidation.
Record t := mk { message : string; patient_id : option string }.
End PatientValidation.

Module DoctorValidation.
Record t := mk { message : string; doctor_id : option string }.
End DoctorValidation.

Module DoctorEntry.
Record t := mk { doctor_id : string; name : string; specialty : string }.
End DoctorEntry.

Module ViewDoctorsResponse.
Inductive t :=
  | Message (message : string)
  | AvailableDoctors (available_doctors : list DoctorEntry.t).
End ViewDoctorsResponse.

Module BookingResponse.
Record t := mk
  { message : string; appointment_id : string; patient_id : string;
      doctor_id : string; date : string; slot : string }.
End BookingResponse.

Module RescheduleResponse.
Record t := mk
  { message : string; appointment_id : string; new_date : string;
      new_slot : string }.
End RescheduleResponse.

Module PaymentResponse.
Record t := mk
  { message : string; patient_id : string; amount_paid : float;
      transaction_id : string }.
End PaymentResponse.

(** ** Module state, exceptions and the handler monad *)

(** The state of the [random] module. What the generator produces is left
    open: an unbounded tape of words, one consumed per draw. *)
Record Random := mkRandom { tape : nat -> N; cursor : nat }.

Record World := mkWorld
  { APPOINTMENTS : gmap string Appointment.t; RANDOM : Random }.

Record HTTPException := mkHTTPException { status_code : Z; detail : string }.

Definition HTTP_404_NOT_FOUND : Z := 404.
Definition HTTP_400_BAD_REQUEST : Z := 400.

Inductive Outcome (A : Type) : Type :=
| Return (a : A)
| Raise (e : HTTPException).
Arguments Return {A} a.
Arguments Raise {A} e.

Definition M (A : Type) : Type := World -> Outcome A * World.

Definition ret {A : Type} (a : A) : M A := fun w => (Return a, w).

Definition raise {A : Type} (e : HTTPException) : M A := fun w => (Raise e, w).

Definition bind {A B : Type} (m : M A) (k : A -> M B) : M B :=
  fun w =>
    match m w with
    | (Return a, w') => k a w'
    | (Raise e, w') => (Raise e, w')
    end.

Declare Scope handler_scope.
Delimit Scope handler_scope with handler.
Notation "x <- m ;; k" := (bind m (fun x => k))
  (at level 100, m at next level, right associativity) : handler_scope.
Notation "m ;;; k" := (bind m (fun _ => k))
  (at level 100, right associativity) : handler_scope.

(** [random._randbelow(n)]: the next word of the tape, brought below [n]. *)
Definition randbelow (n : Z) : M Z :=
  fun w =>
    let r := RANDOM w in
    (Return (Z.of_N (tape r (cursor r)) mod n),
     mkWorld (APPOINTMENTS w) (mkRandom (tape r) (S (cursor r)))).

(** [random.randint(a, b)]: an integer N with a <= N <= b. *)
Definition randint (a b : Z) : M Z :=
  (r <- randbelow (b - a + 1) ;; ret (a + r))%handler.

(** [random.choice(seq)] on a non-empty list literal. *)
Definition choice {A : Type} (x : A) (xs : list A) : M A :=
  (i <- randbelow (Z.of_nat (List.length (x :: xs))) ;;
   ret (List.nth (Z.to_nat i) (x :: xs) x))%handler.

(** [APPOINTMENTS[k] = v] *)
Definition setitem (k : string) (v : Appointment.t) : M unit :=
  fun w => (Return tt, mkWorld (<[k := v]> (APPOINTMENTS w)) (RANDOM w)).

(** [APPOINTMENTS[k][field] = x]: the stored dictionary is changed in place.
    The handlers only reach it after the membership test has passed. *)
Definition setfield (k : string) (f : Appointment.t -> Appointment.t) : M unit :=
  fun w => (Return tt, mkWorld (alter f k (APPOINTMENTS w)) (RANDOM w)).

(** [k in APPOINTMENTS] *)
Definition contains (k : string) : M bool :=
  fun w => (Return (bool_decide (k ∈ dom (APPOINTMENTS w))), w).

(** ** The handlers *)

Definition validate_patient (patient : Patient.t) : M PatientValidation.t :=
  if bool_decide (Patient.patient_id patient ∈ ALLOWED_PATIENTS)
  then ret (PatientValidation.mk "Patient ID is valid!"
              (Some (Patient.patient_id patient)))
  else ret (PatientValidation.mk "Patient ID is invalid!" None).

Definition re_validate_patient (patient : Patient.t) : M PatientValidation.t :=
  if bool_decide (Patient.patient_id patient ∈ ALLOWED_PATIENTS)
  then ret (PatientValidation.mk "Re-entered Patient ID is valid!"
              (Some (Patient.patient_id patient)))
  else ret (PatientValidation.mk "Re-entered Patient ID is invalid!" None).

(** The list comprehension of [view_doctors]. *)
Definition matching_doctors (specialty : DoctorSpecialty.t) : list DoctorEntry.t :=
  List.map
    (fun kv => DoctorEntry.mk (fst kv) (DoctorDetails.name (snd kv))
                 (DoctorDetails.specialty (snd kv)))
    (List.filter
       (fun kv => String.eqb (lower (DoctorDetails.specialty (snd kv)))
                    (lower (DoctorSpecialty.specialty specialty)))
       ALLOWED_DOCTORS).

Definition view_doctors (specialty : DoctorSpecialty.t) : M ViewDoctorsResponse.t :=
  let doctors := matching_doctors specialty in
  match doctors with
  | [] => ret (ViewDoctorsResponse.Message
                 ("No doctors available for specialty: "
                    ++ DoctorSpecialty.specialty specialty))
  | _ => ret (ViewDoctorsResponse.AvailableDoctors doctors)
  end.

Definition re_verify_doctor (doctor_id : string) : M DoctorValidation.t :=
  if dict_contains doctor_id ALLOWED_DOCTORS
  then ret (DoctorValidation.mk "Re-entered Doctor ID is valid!" (Some doctor_id))
  else ret (DoctorValidation.mk "Re-entered Doctor ID is invalid!" None).

Definition booking_slots : string * list string :=
  ("10:00 AM", ["11:30 AM"; "2:00 PM"; "4:00 PM"]).

Definition book_appointment (booking : AppointmentBooking.t) : M BookingResponse.t :=
  if negb (bool_decide (AppointmentBooking.patient_id booking ∈ ALLOWED_PATIENTS))
  then raise (mkHTTPException HTTP_404_NOT_FOUND "Patient ID not found.")
  else if negb (dict_contains (AppointmentBooking.doctor_id booking) ALLOWED_DOCTORS)
  then raise (mkHTTPException HTTP_404_NOT_FOUND "Doctor ID not found.")
  else
    (n <- randint 1000 9999 ;;
     let appointment_id := "A" ++ str n in
     slot <- choice (fst booking_slots) (snd booking_slots) ;;
     let appointment_date := AppointmentBooking.date booking in
     setitem appointment_id
       (Appointment.mk (AppointmentBooking.patient_id booking)
          (AppointmentBooking.doctor_id booking) appointment_date slot) ;;;
     ret (BookingResponse.mk "Appointment booked successfully!" appointment_id
            (AppointmentBooking.patient_id booking)
            (AppointmentBooking.doctor_id booking) appointment_date slot))%handler.

Definition reschedule_slots : string * list string :=
  ("9:30 AM", ["12:00 PM"; "3:00 PM"; "5:30 PM"]).

Definition reschedule_appointment (reschedule : RescheduleAppointment.t)
  : M RescheduleResponse.t :=
  (present <- contains (RescheduleAppointment.appointment_id reschedule) ;;
   if negb present
   then raise (mkHTTPException HTTP_404_NOT_FOUND "Appointment not found.")
   else
     new_slot <- choice (fst reschedule_slots) (snd reschedule_slots) ;;
     setfield (RescheduleAppointment.appointment_id reschedule)
       (Appointment.set_date (RescheduleAppointment.new_date reschedule)) ;;;
     setfield (RescheduleAppointment.appointment_id reschedule)
       (Appointment.set_slot new_slot) ;;;
     ret (RescheduleResponse.mk "Appointment rescheduled successfully!"
            (RescheduleAppointment.appointment_id reschedule)
            (RescheduleAppointment.new_date reschedule) new_slot))%handler.

Definition pay_consultation (payment : Payment.t) : M PaymentResponse.t :=
  if negb (bool_decide (Payment.patient_id payment ∈ ALLOWED_PATIENTS))
  then raise (mkHTTPException HTTP_404_NOT_FOUND "Patient ID not found.")
  else if SFleb (Payment.amount payment) float_of_int_0
  then raise (mkHTTPException HTTP_400_BAD_REQUEST
                "Payment amount must be greater than zero.")
  else
    (n <- randint 100000 999999 ;;
     let transaction_id := "T" ++ str n in
     ret (PaymentResponse.mk "Payment successful!" (Payment.patient_id payment)
            (Payment.amount payment) transaction_id))%handler.

(** ** A concrete world to run the handlers in *)

Definition constant_tape (n : N) : nat -> N := fun _ => n.
Definition counting_tape : nat -> N := fun i => N.of_nat (7 * i + 3).

Definition fresh_world (t : nat -> N) : World := mkWorld ∅ (mkRandom t 0).

Definition booking_P001_D101 : AppointmentBooking.t :=
  AppointmentBooking.mk "P001" "D101" "2024-05-01".

(** ** Decimal rendering of drawn numbers *)

Definition is_digit (c : ascii) : bool :=
  let n := nat_of_ascii c in ((48 <=? n) && (n <=? 57))%nat.

Definition four_digits (s : string) : bool :=
  match s with
  | String a (String b (String c (String d EmptyString))) =>
      is_digit a && is_digit b && is_digit c && is_digit d
  | _ => false
  end.

(** ** What one call draws from the generator *)

(** The word under the cursor, and the world once it has been consumed. *)
Definition next_word (w : World) : Z :=
  Z.of_N (tape (RANDOM w) (cursor (RANDOM w))).

Definition advance (w : World) : World :=
  mkWorld (APPOINTMENTS w)
    (mkRandom (tape (RANDOM w)) (S (cursor (RANDOM w)))).

(** The number [book_appointment] draws in world [w], the slot it then
    chooses, and the record it stores. *)
Definition drawn_number (w : World) : Z := 1000 + next_word w mod 9000.

Definition drawn_slot (slots : string * list string) (w : World) : string :=
  List.nth (Z.to_nat (next_word w mod 4)) (fst slots :: snd slots) (fst slots).

Definition booked_record (booking : AppointmentBooking.t) (w : World) : Appointment.t :=
  Appointment.mk (AppointmentBooking.patient_id booking)
    (AppointmentBooking.doctor_id booking) (AppointmentBooking.date booking)
    (drawn_slot booking_slots (advance w)).

Definition valid_booking (booking : AppointmentBooking.t) : Prop :=
  AppointmentBooking.patient_id booking ∈ ALLOWED_PATIENTS
  /\ dict_contains (AppointmentBooking.doctor_id booking) ALLOWED_DOCTORS = true.

(** ** Concrete runs *)

Definition booking_P002_D102 : AppointmentBooking.t :=
  AppointmentBooking.mk "P002" "D102" "2024-06-15".

Definition booking_P999_D999 : AppointmentBooking.t :=
  AppointmentBooking.mk "P999" "D999" "2024-05-01".

(** The world left behind by one booking when the generator keeps producing
    the same word. *)
Definition world_after_first_booking : World :=
  snd (book_appointment booking_P001_D101 (fresh_world (constant_tape 0))).

Definition world_after_counting : World :=
  snd (book_appointment booking_P001_D101 (fresh_world counting_tape)).

Definition reschedule_A1003 : RescheduleAppointment.t :=
  RescheduleAppointment.mk "A1003" "2024-05-02".

(** The binary64 values -5.0 and 150.0. *)
Definition float_minus_5 : float := S754_finite true 5629499534213120 (-50).
Definition float_150 : float := S754_finite false 5277655813324800 (-45).

Definition payment_P002_minus_5 : Payment.t := Payment.mk "P002" float_minus_5.
Definition payment_P002_150 : Payment.t := Payment.mk "P002" float_150.
Definition payment_P999_minus_5 : Payment.t := Payment.mk "P999" float_minus_5.

(** The text "neurologi", U+017F (long s), "t". *)
Definition neurologist_with_long_s : string :=
  "neurologi" ++ String "197" (String "191" "t").

(** ** Strings that differ only in the case of their letters *)

(** Two characters are the same letter when they are equal or when one is a
    capital letter and the other its small form. *)
Definition same_letter (a b : ascii) : Prop :=
  let m := nat_of_ascii a in
  let n := nat_of_ascii b in
  (m = n
   \/ ((65 <= m)%nat /\ (m <= 90)%nat /\ n = (m + 32)%nat)
   \/ ((65 <= n)%nat /\ (n <= 90)%nat /\ m = (n + 32)%nat)).

(** Case-insensitive equality of whole strings: same length, same letter at
    every position. *)
Inductive case_variant : string -> string -> Prop :=
| case_variant_empty : case_variant EmptyString EmptyString
| case_variant_char (a b : ascii) (s t : string) :
    same_letter a b -> case_variant s t ->
    case_variant (String a s) (String b t).

(** ** The application: one request after another *)

(** One constructor per route registered with [@app.post]. *)
Inductive Request :=
| POST_validate_patient (patient : Patient.t)
| POST_re_validate_patient (patient : Patient.t)
| POST_view_doctors (specialty : DoctorSpecialty.t)
| POST_re_verify_doctor (doctor_id : string)
| POST_book_appointment (booking : AppointmentBooking.t)
| POST_reschedule_appointment (reschedule : RescheduleAppointment.t)
| POST_pay_consultation (payment : Payment.t).

Inductive Response :=
| PatientAnswer (r : PatientValidation.t)
| DoctorsAnswer (r : ViewDoctorsResponse.t)
| DoctorAnswer (r : DoctorValidation.t)
| BookingAnswer (r : BookingResponse.t)
| RescheduleAnswer (r : RescheduleResponse.t)
| PaymentAnswer (r : PaymentResponse.t).

(** The route table: each request runs the handler of its path. *)
Definition app (req : Request) : M Response :=
  match req with
  | POST_validate_patient patient =>
      (r <- validate_patient patient ;; ret (PatientAnswer r))%handler
  | POST_re_validate_patient patient =>
      (r <- re_validate_patient patient ;; ret (PatientAnswer r))%handler
  | POST_view_doctors specialty =>
      (r <- view_doctors specialty ;; ret (DoctorsAnswer r))%handler
  | POST_re_verify_doctor doctor_id =>
      (r <- re_verify_doctor doctor_id ;; ret (DoctorAnswer r))%handler
  | POST_book_appointment booking =>
      (r <- book_appointment booking ;; ret (BookingAnswer r))%handler
  | POST_reschedule_appointment reschedule =>
      (r <- reschedule_appointment reschedule ;; ret (RescheduleAnswer r))%handler
  | POST_pay_consultation payment =>
      (r <- pay_consultation payment ;; ret (PaymentAnswer r))%handler
  end.

(** The process serves requests in turn. An [HTTPException] ends the request
    that raised it, not the process: the next request runs in the world the
    failed one left. *)
Fixpoint serve (reqs : list Request) (w : World) : list (Outcome Response) * World :=
  match reqs with
  | [] => ([], w)
  | req :: reqs' =>
      let (o, w1) := app req w in
      let (os, w2) := serve reqs' w1 in
      (o :: os, w2)
  end.

(** The process starts with [APPOINTMENTS = {}] and the generator in any
    state. *)
Definition initial_world (r : Random) : World := mkWorld ∅ r.

Definition is_booking (req : Request) : bool :=
  match req with POST_book_appointment _ => true | _ => false end.

(** What one request can do to the registry: nothing, store the record of a
    booking under the identifier it returns, or rewrite date and slot of the
    record a reschedule names. *)
Inductive registry_step (req : Request) (w : World)
  : Outcome Response -> gmap string Appointment.t -> Prop :=
| step_unchanged (o : Outcome Response) :
    (forall r : BookingResponse.t, o <> Return (BookingAnswer r)) ->
    is_booking req = false \/ (exists e : HTTPException, o = Raise e) ->
    registry_step req w o (APPOINTMENTS w)
| step_booked (booking : AppointmentBooking.t) (r : BookingResponse.t) :
    req = POST_book_appointment booking ->
    valid_booking booking ->
    BookingResponse.appointment_id r = "A" ++ str (drawn_number w) ->
    registry_step req w (Return (BookingAnswer r))
      (<[BookingResponse.appointment_id r := booked_record booking w]> (APPOINTMENTS w))
| step_rescheduled (reschedule : RescheduleAppointment.t) (r : RescheduleResponse.t) :
    req = POST_reschedule_appointment reschedule ->
    RescheduleAppointment.appointment_id reschedule ∈ dom (APPOINTMENTS w) ->
    In (RescheduleResponse.new_slot r) ["9:30 AM"; "12:00 PM"; "3:00 PM"; "5:30 PM"] ->
    registry_step req w (Return (RescheduleAnswer r))
      (alter (Appointment.set_slot (RescheduleResponse.new_slot r))
         (RescheduleAppointment.appointment_id reschedule)
         (alter (Appointment.set_date (RescheduleAppointment.new_date reschedule))
            (RescheduleAppointment.appointment_id reschedule)
            (APPOINTMENTS w))).

(** ** What every stored record looks like *)

Definition appointment_key (k : string) : Prop :=
  exists n : Z, 1000 <= n <= 9999 /\ k = "A" ++ str n.

Definition known_slots : list string :=
  ["10:00 AM"; "11:30 AM"; "2:00 PM"; "4:00 PM";
   "9:30 AM"; "12:00 PM"; "3:00 PM"; "5:30 PM"].

Definition record_ok (k : string) (a : Appointment.t) : Prop :=
  appointment_key k
  /\ Appointment.patient_id a ∈ ALLOWED_PATIENTS
  /\ dict_contains (Appointment.doctor_id a) ALLOWED_DOCTORS = true
  /\ In (Appointment.slot a) known_slots.

Definition registry_ok (m : gmap string Appointment.t) : Prop :=
  map_Forall record_ok m.

(** The patient and the doctor an appointment belongs to. *)
Definition parties (a : Appointment.t) : string * string :=
  (Appointment.patient_id a, Appointment.doctor_id a).

(** [validate_patient] answering without handing the identifier back. *)
Definition validate_patient_rejects (p : string) (w : World) : Prop :=
  exists r : PatientValidation.t,
    validate_patient (Patient.mk p) w = (Return r, w)
    /\ PatientValidation.patient_id r = None.

Definition six_digits (s : string) : bool :=
  match s with
  | String a (String b (String c (String d (String e (String f EmptyString))))) =>
      is_digit a && is_digit b && is_digit c && is_digit d && is_digit e && is_digit f
  | _ => false
  end.

Fixpoint all_digits (s : string) : bool :=
  match s with
  | EmptyString => true
  | String c s' => is_digit c && all_digits s'
  end.

Definition requests_of_a_visit : list Request :=
  [ POST_validate_patient (Patient.mk "P001");
    POST_view_doctors (DoctorSpecialty.mk "cardiologist");
    POST_book_appointment booking_P001_D101;
    POST_reschedule_appointment reschedule_A1003;
    POST_pay_consultation payment_P002_minus_5;
    POST_pay_consultation payment_P002_150 ].

(** * Properties *)

Example book_runs :
  fst (book_appointment booking_P001_D101 (fresh_world counting_tape))
  = Return (BookingResponse.mk "Appointment booked successfully!" "A1003"
              "P001" "D101" "2024-05-01" "2:00 PM").
Proof. vm_compute. reflexivity. Qed.

Example view_doctors_runs_on_a_match :
  fst (view_doctors (DoctorSpecialty.mk "neurologist") (fresh_world counting_tape))
  = Return (ViewDoctorsResponse.AvailableDoctors
              [DoctorEntry.mk "D103" "Dr. Clara" "Neurologist"]).
Proof. reflexivity. Qed.

Example view_doctors_runs_on_a_prefix :
  fst (view_doctors (DoctorSpecialty.mk "Neuro") (fresh_world counting_tape))
  = Return (ViewDoctorsResponse.Message "No doctors available for specialty: Neuro").
Proof. reflexivity. Qed.

Example str_examples : str 1003 = "1003" /\ str 0 = "0" /\ str (-5) = "-5".
Proof. repeat split. Qed.

Example floats_are_binary64 :
  valid_binary 53 1024 float_minus_5 = true /\ valid_binary 53 1024 float_150 = true.
Proof. split; reflexivity. Qed.

Lemma dict_contains_keys {V : Type} (k : string) (d : list (string * V)) :
  dict_contains k d = true <-> In k (List.map fst d).
Proof.
  unfold dict_contains. rewrite existsb_exists, in_map_iff. split.
  - intros (kv & Hin & Heq). apply String.eqb_eq in Heq. eauto.
  - intros (kv & <- & Hin). exists kv. split; [exact Hin|apply String.eqb_refl].
Qed.

(** ** Decimal rendering *)

Lemma to_int_not_nil (n : Z) : Z.to_int n <> Pos Nil /\ Z.to_int n <> Neg Nil.
Proof.
  destruct n as [|p|p]; cbn; split; try discriminate;
    intros [= E]; exact (Unsigned.to_uint_nonnil p E).
Qed.

Lemma str_parses (n : Z) : NilZero.int_of_string (str n) = Some (Z.to_int n).
Proof.
  unfold str. destruct (to_int_not_nil n) as [Hp Hn].
  now apply NilZero.isi.
Qed.

Lemma str_inj (m n : Z) : str m = str n -> m = n.
Proof.
  intros E. apply to_int_inj.
  pose proof (str_parses m) as Hm. rewrite E, str_parses in Hm.
  congruence.
Qed.

Lemma between_offset (a b n : Z) :
  a <= n <= b -> exists k : nat, (k < Z.to_nat (b - a + 1))%nat /\ n = a + Z.of_nat k.
Proof. intros H. exists (Z.to_nat (n - a)). lia. Qed.

Lemma str_four_digits (n : Z) : 1000 <= n <= 9999 -> four_digits (str n) = true.
Proof.
  intros H. destruct (between_offset _ _ _ H) as (k & Hk & ->).
  assert (All : forallb (fun k => four_digits (str (1000 + Z.of_nat k)))
                  (seq 0 (Z.to_nat 9000)) = true) by (vm_compute; reflexivity).
  rewrite forallb_forall in All. apply All, in_seq.
  change (9999 - 1000 + 1) with 9000 in Hk. lia.
Qed.

(** ** Running a booking *)

Lemma drawn_number_range (w : World) : 1000 <= drawn_number w <= 9999.
Proof.
  unfold drawn_number.
  pose proof (Z.mod_pos_bound (next_word w) 9000 ltac:(lia)). lia.
Qed.

Lemma drawn_slot_in (slots : string * list string) (w : World) :
  List.length (snd slots) = 3%nat ->
  In (drawn_slot slots w) (fst slots :: snd slots).
Proof.
  intros Hlen. unfold drawn_slot. apply nth_In. cbn [List.length]. rewrite Hlen.
  pose proof (Z.mod_pos_bound (next_word w) 4 ltac:(lia)). lia.
Qed.

(** A booking with known identifiers runs to completion, and this is all it
    does. *)
Lemma book_appointment_valid (booking : AppointmentBooking.t) (w : World) :
  valid_booking booking ->
  book_appointment booking w
  = (Return (BookingResponse.mk "Appointment booked successfully!"
               ("A" ++ str (drawn_number w))
               (AppointmentBooking.patient_id booking)
               (AppointmentBooking.doctor_id booking)
               (AppointmentBooking.date booking)
               (drawn_slot booking_slots (advance w))),
     mkWorld (<["A" ++ str (drawn_number w) := booked_record booking w]>
                (APPOINTMENTS w))
       (RANDOM (advance (advance w)))).
Proof.
  intros [Hp Hd]. unfold book_appointment.
  rewrite (bool_decide_eq_true_2 _ Hp), Hd. reflexivity.
Qed.

Lemma book_appointment_unknown_patient (booking : AppointmentBooking.t) (w : World) :
  AppointmentBooking.patient_id booking ∉ ALLOWED_PATIENTS ->
  book_appointment booking w
  = (Raise (mkHTTPException HTTP_404_NOT_FOUND "Patient ID not found."), w).
Proof.
  intros Hp. unfold book_appointment.
  rewrite (bool_decide_eq_false_2 _ Hp). reflexivity.
Qed.

Lemma book_appointment_unknown_doctor (booking : AppointmentBooking.t) (w : World) :
  AppointmentBooking.patient_id booking ∈ ALLOWED_PATIENTS ->
  dict_contains (AppointmentBooking.doctor_id booking) ALLOWED_DOCTORS = false ->
  book_appointment booking w
  = (Raise (mkHTTPException HTTP_404_NOT_FOUND "Doctor ID not found."), w).
Proof.
  intros Hp Hd. unfold book_appointment.
  rewrite (bool_decide_eq_true_2 _ Hp), Hd. reflexivity.
Qed.

(** A successful booking is one whose identifiers were both known. *)
Lemma book_appointment_returns (booking : AppointmentBooking.t) (w w' : World)
    (resp : BookingResponse.t) :
  book_appointment booking w = (Return resp, w') -> valid_booking booking.
Proof.
  intros E. destruct (decide (AppointmentBooking.patient_id booking ∈ ALLOWED_PATIENTS)) as [Hp|Hp].
  - destruct (dict_contains (AppointmentBooking.doctor_id booking) ALLOWED_DOCTORS) eqn:Hd.
    + now split.
    + rewrite (book_appointment_unknown_doctor _ _ Hp Hd) in E. discriminate.
  - rewrite (book_appointment_unknown_patient _ _ Hp) in E. discriminate.
Qed.

(** ** Registry size and identifier reuse *)

Lemma booked_size (k : string) (a : Appointment.t) (m : gmap string Appointment.t) :
  size (<[k := a]> m)
  = if bool_decide (k ∈ dom m) then size m else S (size m).
Proof.
  rewrite map_size_insert. case_bool_decide as Hk.
  - apply elem_of_dom in Hk as [x ->]. reflexivity.
  - apply not_elem_of_dom in Hk as ->. reflexivity.
Qed.

Lemma known_patient (p : string) :
  bool_decide (p ∈ ALLOWED_PATIENTS) = true -> p ∈ ALLOWED_PATIENTS.
Proof. apply bool_decide_eq_true_1. Qed.

Lemma unknown_patient (p : string) :
  bool_decide (p ∈ ALLOWED_PATIENTS) = false -> p ∉ ALLOWED_PATIENTS.
Proof. apply bool_decide_eq_false_1. Qed.

Lemma valid_booking_P001_D101 : valid_booking booking_P001_D101.
Proof. split; [apply known_patient|]; vm_compute; reflexivity. Defined.

Lemma valid_booking_P002_D102 : valid_booking booking_P002_D102.
Proof. split; [apply known_patient|]; vm_compute; reflexivity. Defined.

(** C1, as stated, fails: after one booking that produced [A1000], a second
    successful booking that draws the same number leaves the registry with
    one record, not two. *)
Lemma book_appointment_size_collision :
  exists (resp : BookingResponse.t) (w' : World),
    book_appointment booking_P002_D102 world_after_first_booking = (Return resp, w')
    /\ size (APPOINTMENTS world_after_first_booking) = 1%nat
    /\ size (APPOINTMENTS w') = 1%nat.
Proof.
  eexists _, _. split; [apply book_appointment_valid, valid_booking_P002_D102|].
  split; vm_compute; reflexivity.
Qed.

(** C1 (amended): a booking with known patient and doctor identifiers
    succeeds, and the registry grows by exactly one record when the generated
    appointment identifier is not yet a key of the registry; when it already
    is one, the size stays as it was. *)
Theorem book_appointment_size (booking : AppointmentBooking.t) (w : World) :
  valid_booking booking ->
  exists (resp : BookingResponse.t) (w' : World),
    book_appointment booking w = (Return resp, w')
    /\ size (APPOINTMENTS w')
       = if bool_decide (BookingResponse.appointment_id resp ∈ dom (APPOINTMENTS w))
         then size (APPOINTMENTS w)
         else S (size (APPOINTMENTS w)).
Proof.
  intros Hv. eexists _, _. split; [apply book_appointment_valid, Hv|].
  cbn [APPOINTMENTS BookingResponse.appointment_id]. apply booked_size.
Qed.

Lemma book_appointment_size_witness :
  valid_booking booking_P001_D101
  /\ exists (resp : BookingResponse.t) (w' : World),
       book_appointment booking_P001_D101 (fresh_world counting_tape) = (Return resp, w')
       /\ size (APPOINTMENTS w')
          = if bool_decide (BookingResponse.appointment_id resp
                              ∈ dom (APPOINTMENTS (fresh_world counting_tape)))
            then size (APPOINTMENTS (fresh_world counting_tape))
            else S (size (APPOINTMENTS (fresh_world counting_tape))).
Proof.
  split; [exact valid_booking_P001_D101|].
  exact (book_appointment_size booking_P001_D101 (fresh_world counting_tape)
           valid_booking_P001_D101).
Defined.

(** C2, as stated, fails: two successive successful bookings return the same
    identifier [A1000], and the second replaces the record of the first. *)
Lemma book_appointment_id_reused :
  exists (r1 r2 : BookingResponse.t) (w1 w2 : World),
    book_appointment booking_P001_D101 (fresh_world (constant_tape 0)) = (Return r1, w1)
    /\ book_appointment booking_P002_D102 w1 = (Return r2, w2)
    /\ BookingResponse.appointment_id r1 = "A1000"
    /\ BookingResponse.appointment_id r2 = "A1000"
    /\ APPOINTMENTS w1 !! "A1000"
       = Some (Appointment.mk "P001" "D101" "2024-05-01" "10:00 AM")
    /\ APPOINTMENTS w2 !! "A1000"
       = Some (Appointment.mk "P002" "D102" "2024-06-15" "10:00 AM").
Proof.
  eexists _, _, _, _.
  split; [apply book_appointment_valid, valid_booking_P001_D101|].
  split; [apply book_appointment_valid, valid_booking_P002_D102|].
  repeat split; vm_compute; reflexivity.
Qed.

(** C2 (amended): no uniqueness check is made. Two successful bookings return
    the same appointment identifier exactly when the generator hands both the
    same number; a booking whose identifier is not yet a key of the registry
    keeps every existing record, and a booking never touches a record stored
    under another identifier. *)
Theorem book_appointment_id_distinct
    (b1 b2 : AppointmentBooking.t) (w1 w2 w1' w2' : World)
    (r1 r2 : BookingResponse.t) :
  book_appointment b1 w1 = (Return r1, w1') ->
  book_appointment b2 w2 = (Return r2, w2') ->
  (BookingResponse.appointment_id r1 = BookingResponse.appointment_id r2
   <-> drawn_number w1 = drawn_number w2)
  /\ (BookingResponse.appointment_id r2 ∉ dom (APPOINTMENTS w2) ->
      APPOINTMENTS w2 ⊆ APPOINTMENTS w2')
  /\ (forall k : string,
        k <> BookingResponse.appointment_id r2 ->
        APPOINTMENTS w2' !! k = APPOINTMENTS w2 !! k).
Proof.
  intros E1 E2.
  pose proof (book_appointment_returns _ _ _ _ E1) as V1.
  pose proof (book_appointment_returns _ _ _ _ E2) as V2.
  rewrite (book_appointment_valid _ _ V1) in E1.
  rewrite (book_appointment_valid _ _ V2) in E2.
  injection E1 as <- <-. injection E2 as <- <-.
  cbn [BookingResponse.appointment_id APPOINTMENTS].
  split; [|split].
  - split.
    + intros [= E]. now apply str_inj.
    + now intros ->.
  - intros Hfresh. apply insert_subseteq. now apply not_elem_of_dom.
  - intros k Hk. now apply lookup_insert_ne.
Qed.

Lemma book_appointment_id_distinct_witness :
  ("A1003" = "A1017"
   <-> drawn_number (fresh_world counting_tape) = drawn_number world_after_counting)
  /\ APPOINTMENTS world_after_counting
     ⊆ APPOINTMENTS (snd (book_appointment booking_P002_D102 world_after_counting)).
Proof.
  destruct (book_appointment_id_distinct booking_P001_D101 booking_P002_D102
              (fresh_world counting_tape) world_after_counting _ _ _ _
              (book_appointment_valid _ _ valid_booking_P001_D101)
              (book_appointment_valid _ _ valid_booking_P002_D102))
    as (Hiff & Hfresh & _).
  split; [exact Hiff|].
  rewrite (book_appointment_valid _ _ valid_booking_P002_D102).
  apply Hfresh. apply (bool_decide_unpack _). vm_compute. exact I.
Defined.

(** ** What a booking returns and stores *)

(** C3: a booking whose patient and doctor identifiers are both known
    succeeds; the returned identifier is the letter A followed by the four
    decimal digits of a number between 1000 and 9999, the slot is one of the
    four booking slots, the date is the one supplied, and afterwards the
    registry holds, under the returned identifier, a record with exactly the
    patient, doctor, date and slot of the response. *)
Theorem book_appointment_success (booking : AppointmentBooking.t) (w : World) :
  AppointmentBooking.patient_id booking ∈ ALLOWED_PATIENTS ->
  dict_contains (AppointmentBooking.doctor_id booking) ALLOWED_DOCTORS = true ->
  exists (resp : BookingResponse.t) (w' : World) (n : Z),
    book_appointment booking w = (Return resp, w')
    /\ 1000 <= n <= 9999
    /\ BookingResponse.appointment_id resp = "A" ++ str n
    /\ four_digits (str n) = true
    /\ In (BookingResponse.slot resp) ["10:00 AM"; "11:30 AM"; "2:00 PM"; "4:00 PM"]
    /\ BookingResponse.date resp = AppointmentBooking.date booking
    /\ BookingResponse.patient_id resp = AppointmentBooking.patient_id booking
    /\ BookingResponse.doctor_id resp = AppointmentBooking.doctor_id booking
    /\ APPOINTMENTS w' !! BookingResponse.appointment_id resp
       = Some (Appointment.mk (AppointmentBooking.patient_id booking)
                 (AppointmentBooking.doctor_id booking)
                 (AppointmentBooking.date booking)
                 (BookingResponse.slot resp)).
Proof.
  intros Hp Hd.
  eexists _, _, (drawn_number w).
  split; [apply book_appointment_valid; now split|].
  pose proof (drawn_number_range w) as Hn.
  cbn [BookingResponse.appointment_id BookingResponse.slot BookingResponse.date
       BookingResponse.patient_id BookingResponse.doctor_id APPOINTMENTS].
  repeat split; try lia.
  - now apply str_four_digits.
  - apply (drawn_slot_in booking_slots). reflexivity.
  - apply lookup_insert_eq.
Qed.

Lemma book_appointment_success_witness :
  "P001" ∈ ALLOWED_PATIENTS
  /\ dict_contains "D101" ALLOWED_DOCTORS = true
  /\ exists (resp : BookingResponse.t) (w' : World),
       book_appointment booking_P001_D101 (fresh_world counting_tape) = (Return resp, w')
       /\ four_digits (substring 1 4 (BookingResponse.appointment_id resp)) = true
       /\ APPOINTMENTS w' !! BookingResponse.appointment_id resp
          = Some (Appointment.mk "P001" "D101" "2024-05-01" (BookingResponse.slot resp)).
Proof.
  assert (Hp : "P001" ∈ ALLOWED_PATIENTS)
    by exact (proj1 valid_booking_P001_D101).
  assert (Hd : dict_contains "D101" ALLOWED_DOCTORS = true) by reflexivity.
  split; [exact Hp|]. split; [exact Hd|].
  destruct (book_appointment_success booking_P001_D101 (fresh_world counting_tape) Hp Hd)
    as (resp & w' & n & Hrun & _ & Hid & Hdigits & _ & _ & _ & _ & Hstored).
  exists resp, w'. split; [exact Hrun|]. split; [|exact Hstored].
  rewrite Hid. destruct (str n) as [|a [|b [|c [|d [|e s]]]]]; try discriminate.
  exact Hdigits.
Defined.

(** ** Bookings that are refused *)

(** C4: when the patient identifier is not in the patient directory, or the
    doctor identifier is not in the doctor directory, the booking fails with
    status 404 and the world, registry included, is left exactly as it was. *)
Theorem book_appointment_not_found (booking : AppointmentBooking.t) (w : World) :
  (AppointmentBooking.patient_id booking ∉ ALLOWED_PATIENTS)
  \/ dict_contains (AppointmentBooking.doctor_id booking) ALLOWED_DOCTORS = false ->
  exists e : HTTPException,
    book_appointment booking w = (Raise e, w)
    /\ status_code e = HTTP_404_NOT_FOUND
    /\ APPOINTMENTS (snd (book_appointment booking w)) = APPOINTMENTS w.
Proof.
  intros H.
  destruct (decide (AppointmentBooking.patient_id booking ∈ ALLOWED_PATIENTS)) as [Hp|Hp].
  - destruct H as [H|Hd]; [contradiction|].
    rewrite (book_appointment_unknown_doctor _ _ Hp Hd). eauto.
  - rewrite (book_appointment_unknown_patient _ _ Hp). eauto.
Qed.

Lemma book_appointment_not_found_witness :
  (("P001" ∉ ALLOWED_PATIENTS) \/ dict_contains "D999" ALLOWED_DOCTORS = false)
  /\ exists e : HTTPException,
       book_appointment (AppointmentBooking.mk "P001" "D999" "2024-05-01")
         world_after_counting
       = (Raise e, world_after_counting)
       /\ status_code e = HTTP_404_NOT_FOUND
       /\ APPOINTMENTS
            (snd (book_appointment (AppointmentBooking.mk "P001" "D999" "2024-05-01")
                    world_after_counting))
          = APPOINTMENTS world_after_counting.
Proof.
  assert (H : ("P001" ∉ ALLOWED_PATIENTS) \/ dict_contains "D999" ALLOWED_DOCTORS = false)
    by (right; reflexivity).
  split; [exact H|].
  exact (book_appointment_not_found (AppointmentBooking.mk "P001" "D999" "2024-05-01")
           world_after_counting H).
Defined.

(** C9: the patient identifier is checked first. When neither identifier is
    known, the failure is the 404 raised for the patient, with detail
    "Patient ID not found.", and not the one for the doctor. *)
Theorem book_appointment_patient_checked_first
    (booking : AppointmentBooking.t) (w : World) :
  AppointmentBooking.patient_id booking ∉ ALLOWED_PATIENTS ->
  dict_contains (AppointmentBooking.doctor_id booking) ALLOWED_DOCTORS = false ->
  book_appointment booking w
  = (Raise (mkHTTPException HTTP_404_NOT_FOUND "Patient ID not found."), w)
  /\ fst (book_appointment booking w)
     <> Raise (mkHTTPException HTTP_404_NOT_FOUND "Doctor ID not found.").
Proof.
  intros Hp _. rewrite (book_appointment_unknown_patient _ _ Hp).
  split; [reflexivity|]. cbn. discriminate.
Qed.

Lemma book_appointment_patient_checked_first_witness :
  ("P999" ∉ ALLOWED_PATIENTS)
  /\ dict_contains "D999" ALLOWED_DOCTORS = false
  /\ book_appointment booking_P999_D999 (fresh_world counting_tape)
     = (Raise (mkHTTPException HTTP_404_NOT_FOUND "Patient ID not found."),
        fresh_world counting_tape).
Proof.
  assert (Hp : "P999" ∉ ALLOWED_PATIENTS)
    by (apply unknown_patient; vm_compute; reflexivity).
  split; [exact Hp|]. split; [reflexivity|].
  exact (proj1 (book_appointment_patient_checked_first booking_P999_D999
                  (fresh_world counting_tape) Hp eq_refl)).
Defined.

(** ** Rescheduling *)

Lemma reschedule_appointment_present
    (reschedule : RescheduleAppointment.t) (w : World) :
  RescheduleAppointment.appointment_id reschedule ∈ dom (APPOINTMENTS w) ->
  reschedule_appointment reschedule w
  = (Return (RescheduleResponse.mk "Appointment rescheduled successfully!"
               (RescheduleAppointment.appointment_id reschedule)
               (RescheduleAppointment.new_date reschedule)
               (drawn_slot reschedule_slots w)),
     mkWorld
       (alter (Appointment.set_slot (drawn_slot reschedule_slots w))
          (RescheduleAppointment.appointment_id reschedule)
          (alter (Appointment.set_date (RescheduleAppointment.new_date reschedule))
             (RescheduleAppointment.appointment_id reschedule)
             (APPOINTMENTS w)))
       (RANDOM (advance w))).
Proof.
  intros Hin. unfold reschedule_appointment, bind, contains.
  rewrite (bool_decide_eq_true_2 _ Hin). reflexivity.
Qed.

Lemma reschedule_appointment_absent
    (reschedule : RescheduleAppointment.t) (w : World) :
  RescheduleAppointment.appointment_id reschedule ∉ dom (APPOINTMENTS w) ->
  reschedule_appointment reschedule w
  = (Raise (mkHTTPException HTTP_404_NOT_FOUND "Appointment not found."), w).
Proof.
  intros Hout. unfold reschedule_appointment, bind, contains.
  rewrite (bool_decide_eq_false_2 _ Hout). reflexivity.
Qed.

Lemma slot_lists_disjoint (s : string) :
  In s ["9:30 AM"; "12:00 PM"; "3:00 PM"; "5:30 PM"] ->
  ~ In s ["10:00 AM"; "11:30 AM"; "2:00 PM"; "4:00 PM"].
Proof.
  cbn. intros [<-|[<-|[<-|[<-|[]]]]] H;
    repeat (destruct H as [H|H]; [discriminate H|]); exact H.
Qed.

(** C5: rescheduling an appointment that is in the registry succeeds; the new
    slot is one of the four reschedule slots, none of which is a booking slot;
    the record keeps its patient and doctor and takes the new date and the
    new slot; every other record is as it was, and so is the number of
    records. *)
Theorem reschedule_appointment_success
    (reschedule : RescheduleAppointment.t) (w : World) (a : Appointment.t) :
  APPOINTMENTS w !! RescheduleAppointment.appointment_id reschedule = Some a ->
  exists (resp : RescheduleResponse.t) (w' : World),
    reschedule_appointment reschedule w = (Return resp, w')
    /\ RescheduleResponse.appointment_id resp
       = RescheduleAppointment.appointment_id reschedule
    /\ RescheduleResponse.new_date resp = RescheduleAppointment.new_date reschedule
    /\ In (RescheduleResponse.new_slot resp)
         ["9:30 AM"; "12:00 PM"; "3:00 PM"; "5:30 PM"]
    /\ ~ In (RescheduleResponse.new_slot resp)
           ["10:00 AM"; "11:30 AM"; "2:00 PM"; "4:00 PM"]
    /\ APPOINTMENTS w' !! RescheduleAppointment.appointment_id reschedule
       = Some (Appointment.mk (Appointment.patient_id a) (Appointment.doctor_id a)
                 (RescheduleAppointment.new_date reschedule)
                 (RescheduleResponse.new_slot resp))
    /\ (forall k : string,
          k <> RescheduleAppointment.appointment_id reschedule ->
          APPOINTMENTS w' !! k = APPOINTMENTS w !! k)
    /\ dom (APPOINTMENTS w') = dom (APPOINTMENTS w)
    /\ size (APPOINTMENTS w') = size (APPOINTMENTS w).
Proof.
  intros Ha. eexists _, _.
  split; [apply reschedule_appointment_present, elem_of_dom; eauto|].
  cbn [RescheduleResponse.appointment_id RescheduleResponse.new_date
       RescheduleResponse.new_slot APPOINTMENTS].
  assert (Hslot : In (drawn_slot reschedule_slots w)
                    ["9:30 AM"; "12:00 PM"; "3:00 PM"; "5:30 PM"])
    by (apply (drawn_slot_in reschedule_slots); reflexivity).
  assert (Hdom : dom (alter (Appointment.set_slot (drawn_slot reschedule_slots w))
                        (RescheduleAppointment.appointment_id reschedule)
                        (alter (Appointment.set_date
                                  (RescheduleAppointment.new_date reschedule))
                           (RescheduleAppointment.appointment_id reschedule)
                           (APPOINTMENTS w)))
                 = dom (APPOINTMENTS w))
    by (now rewrite !dom_alter_L).
  repeat split; try done.
  - now apply slot_lists_disjoint.
  - rewrite !lookup_alter_eq, Ha. reflexivity.
  - intros k Hk. now rewrite !lookup_alter_ne.
  - now rewrite <- !size_dom, Hdom.
Qed.

Lemma reschedule_appointment_success_witness :
  APPOINTMENTS world_after_counting !! RescheduleAppointment.appointment_id reschedule_A1003
  = Some (Appointment.mk "P001" "D101" "2024-05-01" "2:00 PM")
  /\ exists (resp : RescheduleResponse.t) (w' : World),
       reschedule_appointment reschedule_A1003 world_after_counting = (Return resp, w')
       /\ APPOINTMENTS w' !! "A1003"
          = Some (Appointment.mk "P001" "D101" "2024-05-02"
                    (RescheduleResponse.new_slot resp))
       /\ size (APPOINTMENTS w') = size (APPOINTMENTS world_after_counting).
Proof.
  assert (Ha : APPOINTMENTS world_after_counting
                 !! RescheduleAppointment.appointment_id reschedule_A1003
               = Some (Appointment.mk "P001" "D101" "2024-05-01" "2:00 PM"))
    by (vm_compute; reflexivity).
  split; [exact Ha|].
  destruct (reschedule_appointment_success reschedule_A1003 world_after_counting _ Ha)
    as (resp & w' & Hrun & _ & _ & _ & _ & Hstored & _ & _ & Hsize).
  exists resp, w'. repeat split; assumption.
Defined.

(** C6: rescheduling an identifier that is not in the registry fails with
    status 404 and leaves the world, registry included, exactly as it was. *)
Theorem reschedule_appointment_not_found
    (reschedule : RescheduleAppointment.t) (w : World) :
  RescheduleAppointment.appointment_id reschedule ∉ dom (APPOINTMENTS w) ->
  reschedule_appointment reschedule w
  = (Raise (mkHTTPException HTTP_404_NOT_FOUND "Appointment not found."), w)
  /\ APPOINTMENTS (snd (reschedule_appointment reschedule w)) = APPOINTMENTS w.
Proof.
  intros Hout. rewrite (reschedule_appointment_absent _ _ Hout). split; reflexivity.
Qed.

Lemma reschedule_appointment_not_found_witness :
  (RescheduleAppointment.appointment_id (RescheduleAppointment.mk "A4242" "2024-05-02")
     ∉ dom (APPOINTMENTS world_after_counting))
  /\ reschedule_appointment (RescheduleAppointment.mk "A4242" "2024-05-02")
       world_after_counting
     = (Raise (mkHTTPException HTTP_404_NOT_FOUND "Appointment not found."),
        world_after_counting).
Proof.
  assert (Hout : RescheduleAppointment.appointment_id
                   (RescheduleAppointment.mk "A4242" "2024-05-02")
                 ∉ dom (APPOINTMENTS world_after_counting))
    by (apply (bool_decide_unpack _); vm_compute; exact I).
  split; [exact Hout|].
  exact (proj1 (reschedule_appointment_not_found _ _ Hout)).
Defined.

(** ** Payments *)

Lemma float_positive_not_le_zero (x : float) :
  SFltb float_of_int_0 x = true -> SFleb x float_of_int_0 = false.
Proof. destruct x as [s|s| |s m e]; try destruct s; cbn; congruence. Qed.

Lemma pay_consultation_unknown_patient (payment : Payment.t) (w : World) :
  Payment.patient_id payment ∉ ALLOWED_PATIENTS ->
  pay_consultation payment w
  = (Raise (mkHTTPException HTTP_404_NOT_FOUND "Patient ID not found."), w).
Proof.
  intros Hp. unfold pay_consultation.
  rewrite (bool_decide_eq_false_2 _ Hp). reflexivity.
Qed.

Lemma pay_consultation_not_positive (payment : Payment.t) (w : World) :
  Payment.patient_id payment ∈ ALLOWED_PATIENTS ->
  SFleb (Payment.amount payment) float_of_int_0 = true ->
  pay_consultation payment w
  = (Raise (mkHTTPException HTTP_400_BAD_REQUEST
              "Payment amount must be greater than zero."), w).
Proof.
  intros Hp Hle. unfold pay_consultation.
  rewrite (bool_decide_eq_true_2 _ Hp), Hle. reflexivity.
Qed.

Lemma pay_consultation_accepted (payment : Payment.t) (w : World) :
  Payment.patient_id payment ∈ ALLOWED_PATIENTS ->
  SFleb (Payment.amount payment) float_of_int_0 = false ->
  pay_consultation payment w
  = (Return (PaymentResponse.mk "Payment successful!" (Payment.patient_id payment)
               (Payment.amount payment)
               ("T" ++ str (100000 + next_word w mod 900000))),
     advance w).
Proof.
  intros Hp Hle. unfold pay_consultation.
  rewrite (bool_decide_eq_true_2 _ Hp), Hle. reflexivity.
Qed.

(** C7: a payment fails with status 404 exactly when the patient identifier
    is not in the patient directory; for a known patient every amount that is
    less than or equal to zero fails with status 400; and for a known patient
    and an amount greater than zero the payment succeeds, hands back the
    amount as it was given and leaves the appointment registry as it was. *)
Theorem pay_consultation_outcomes (payment : Payment.t) (w : World) :
  ((exists e : HTTPException,
      fst (pay_consultation payment w) = Raise e
      /\ status_code e = HTTP_404_NOT_FOUND)
   <-> Payment.patient_id payment ∉ ALLOWED_PATIENTS)
  /\ (Payment.patient_id payment ∈ ALLOWED_PATIENTS ->
      SFleb (Payment.amount payment) float_of_int_0 = true ->
      exists e : HTTPException,
        pay_consultation payment w = (Raise e, w)
        /\ status_code e = HTTP_400_BAD_REQUEST)
  /\ (Payment.patient_id payment ∈ ALLOWED_PATIENTS ->
      SFltb float_of_int_0 (Payment.amount payment) = true ->
      exists (resp : PaymentResponse.t) (w' : World),
        pay_consultation payment w = (Return resp, w')
        /\ PaymentResponse.amount_paid resp = Payment.amount payment
        /\ PaymentResponse.patient_id resp = Payment.patient_id payment
        /\ APPOINTMENTS w' = APPOINTMENTS w).
Proof.
  split; [|split].
  - split.
    + intros (e & Hrun & Hcode) Hp.
      destruct (SFleb (Payment.amount payment) float_of_int_0) eqn:Hle.
      * rewrite (pay_consultation_not_positive _ _ Hp Hle) in Hrun.
        injection Hrun as <-. discriminate Hcode.
      * rewrite (pay_consultation_accepted _ _ Hp Hle) in Hrun. discriminate Hrun.
    + intros Hp. rewrite (pay_consultation_unknown_patient _ _ Hp). eauto.
  - intros Hp Hle. rewrite (pay_consultation_not_positive _ _ Hp Hle). eauto.
  - intros Hp Hlt. apply float_positive_not_le_zero in Hlt.
    rewrite (pay_consultation_accepted _ _ Hp Hlt). eexists _, _. eauto.
Qed.

Lemma pay_consultation_outcomes_witness :
  "P002" ∈ ALLOWED_PATIENTS
  /\ SFleb float_minus_5 float_of_int_0 = true
  /\ SFltb float_of_int_0 float_150 = true
  /\ (exists e : HTTPException,
        pay_consultation payment_P002_minus_5 (fresh_world counting_tape)
        = (Raise e, fresh_world counting_tape)
        /\ status_code e = HTTP_400_BAD_REQUEST)
  /\ (exists (resp : PaymentResponse.t) (w' : World),
        pay_consultation payment_P002_150 (fresh_world counting_tape) = (Return resp, w')
        /\ PaymentResponse.amount_paid resp = float_150
        /\ PaymentResponse.patient_id resp = "P002"
        /\ APPOINTMENTS w' = APPOINTMENTS (fresh_world counting_tape)).
Proof.
  assert (Hp : "P002" ∈ ALLOWED_PATIENTS)
    by exact (proj1 valid_booking_P002_D102).
  split; [exact Hp|]. split; [reflexivity|]. split; [reflexivity|]. split.
  - exact (proj1 (proj2 (pay_consultation_outcomes payment_P002_minus_5
                           (fresh_world counting_tape))) Hp eq_refl).
  - exact (proj2 (proj2 (pay_consultation_outcomes payment_P002_150
                           (fresh_world counting_tape))) Hp eq_refl).
Defined.

(** C10: the patient identifier is checked before the amount. For a patient
    who is not in the directory and an amount that is not positive, the
    failure is the 404 of the patient check, not the 400 of the amount
    check. *)
Theorem pay_consultation_patient_checked_first (payment : Payment.t) (w : World) :
  Payment.patient_id payment ∉ ALLOWED_PATIENTS ->
  SFleb (Payment.amount payment) float_of_int_0 = true ->
  exists e : HTTPException,
    pay_consultation payment w = (Raise e, w)
    /\ status_code e = HTTP_404_NOT_FOUND
    /\ status_code e <> HTTP_400_BAD_REQUEST.
Proof.
  intros Hp _. rewrite (pay_consultation_unknown_patient _ _ Hp).
  eexists. split; [reflexivity|]. split; [reflexivity|]. cbn. discriminate.
Qed.

Lemma pay_consultation_patient_checked_first_witness :
  ("P999" ∉ ALLOWED_PATIENTS)
  /\ SFleb float_minus_5 float_of_int_0 = true
  /\ exists e : HTTPException,
       pay_consultation payment_P999_minus_5 (fresh_world counting_tape)
       = (Raise e, fresh_world counting_tape)
       /\ status_code e = HTTP_404_NOT_FOUND
       /\ status_code e <> HTTP_400_BAD_REQUEST.
Proof.
  assert (Hp : "P999" ∉ ALLOWED_PATIENTS)
    by (apply unknown_patient; vm_compute; reflexivity).
  split; [exact Hp|]. split; [reflexivity|].
  exact (pay_consultation_patient_checked_first payment_P999_minus_5
           (fresh_world counting_tape) Hp eq_refl).
Defined.

(** ** Looking up doctors by specialty *)

Lemma lower_ascii_code (c : ascii) :
  nat_of_ascii (lower_ascii c)
  = if ((65 <=? nat_of_ascii c) && (nat_of_ascii c <=? 90))%nat
    then (nat_of_ascii c + 32)%nat else nat_of_ascii c.
Proof.
  unfold lower_ascii. pose proof (nat_ascii_bounded c) as Hb.
  destruct ((65 <=? nat_of_ascii c) && (nat_of_ascii c <=? 90))%nat eqn:E;
    [|reflexivity].
  apply andb_true_iff in E as [_ E]. apply Nat.leb_le in E.
  apply nat_ascii_embedding. lia.
Qed.

Lemma upper_ascii_code (c : ascii) :
  nat_of_ascii (upper_ascii c)
  = if ((97 <=? nat_of_ascii c) && (nat_of_ascii c <=? 122))%nat
    then (nat_of_ascii c - 32)%nat else nat_of_ascii c.
Proof.
  unfold upper_ascii.
  destruct ((97 <=? nat_of_ascii c) && (nat_of_ascii c <=? 122))%nat eqn:E;
    [|reflexivity].
  apply andb_true_iff in E as [_ E]. apply Nat.leb_le in E.
  apply nat_ascii_embedding. lia.
Qed.

Lemma swapcase_ascii_code (c : ascii) :
  nat_of_ascii (swapcase_ascii c)
  = if ((65 <=? nat_of_ascii c) && (nat_of_ascii c <=? 90))%nat
    then (nat_of_ascii c + 32)%nat
    else if ((97 <=? nat_of_ascii c) && (nat_of_ascii c <=? 122))%nat
         then (nat_of_ascii c - 32)%nat else nat_of_ascii c.
Proof.
  unfold swapcase_ascii.
  destruct ((65 <=? nat_of_ascii c) && (nat_of_ascii c <=? 90))%nat eqn:E.
  - apply andb_true_iff in E as [_ E]. apply Nat.leb_le in E.
    apply nat_ascii_embedding. lia.
  - destruct ((97 <=? nat_of_ascii c) && (nat_of_ascii c <=? 122))%nat eqn:E';
      [|reflexivity].
    apply andb_true_iff in E' as [_ E']. apply Nat.leb_le in E'.
    apply nat_ascii_embedding. lia.
Qed.

Lemma nat_of_ascii_inj (a b : ascii) : nat_of_ascii a = nat_of_ascii b -> a = b.
Proof.
  intros E. rewrite <- (ascii_nat_embedding a), <- (ascii_nat_embedding b).
  now rewrite E.
Qed.

Ltac split_ranges :=
  repeat match goal with
    | |- context [(?a <=? ?b)%nat] => destruct (Nat.leb_spec a b)
    | H : context [(?a <=? ?b)%nat] |- _ => destruct (Nat.leb_spec a b)
    end; cbn [andb] in *.

Lemma same_letter_lower (a b : ascii) :
  same_letter a b <-> lower_ascii a = lower_ascii b.
Proof.
  unfold same_letter. split.
  - intros H. apply nat_of_ascii_inj. rewrite !lower_ascii_code.
    split_ranges; lia.
  - intros H. apply (f_equal nat_of_ascii) in H. rewrite !lower_ascii_code in H.
    split_ranges; lia.
Qed.

Lemma case_variant_lower (s t : string) :
  case_variant s t <-> lower s = lower t.
Proof.
  split.
  - induction 1 as [|a b s t Hab _ IH]; [reflexivity|].
    cbn [lower]. apply same_letter_lower in Hab. congruence.
  - revert t. induction s as [|a s IH]; intros [|b t]; cbn [lower];
      try discriminate; [constructor|].
    intros [= Hab Hst]. constructor; [now apply same_letter_lower|now apply IH].
Qed.

Lemma case_variant_map (f : ascii -> ascii) (s : string) :
  (forall c : ascii, same_letter c (f c)) -> case_variant s (map_string f s).
Proof. intros Hf. induction s; cbn [map_string]; now constructor. Qed.

Lemma case_variant_lower_of (s : string) : case_variant s (lower s).
Proof.
  induction s as [|c s IH]; cbn [lower]; constructor; [|exact IH].
  unfold same_letter. rewrite lower_ascii_code. split_ranges; lia.
Qed.

Lemma map_text_ascii (f : ascii -> ascii)
    (two : ascii -> ascii -> option string)
    (three : ascii -> ascii -> ascii -> option string) (s : string) :
  is_ascii s = true -> map_text f two three s = Some (map_string f s).
Proof.
  induction s as [|c s IH]; cbn [is_ascii map_text map_string]; [reflexivity|].
  intros H. apply andb_true_iff in H as [Hc Hs]. now rewrite Hc, (IH Hs).
Qed.

Example case_forms_of_listed_characters :
  upper (String "195" (String "159" "")) = Some "SS"
  /\ upper "Neurologist" = Some "NEUROLOGIST"
  /\ swapcase "Neurologist" = Some "nEUROLOGIST"
  /\ swapcase neurologist_with_long_s = Some "NEUROLOGIST"
  /\ swapcase (String "226" (String "132" (String "170" ""))) = Some "k"
  /\ upper (String "195" (String "169" "")) = None.
Proof. repeat split. Qed.

Lemma case_variant_upper_of (s : string) :
  is_ascii s = true ->
  exists u : string, upper s = Some u /\ case_variant s u.
Proof.
  intros H. exists (map_string upper_ascii s).
  split; [now apply map_text_ascii|].
  apply case_variant_map. intros c. unfold same_letter.
  rewrite upper_ascii_code. split_ranges; lia.
Qed.

Lemma case_variant_swapcase_of (s : string) :
  is_ascii s = true ->
  exists u : string, swapcase s = Some u /\ case_variant s u.
Proof.
  intros H. exists (map_string swapcase_ascii s).
  split; [now apply map_text_ascii|].
  apply case_variant_map. intros c. unfold same_letter.
  rewrite swapcase_ascii_code. split_ranges; lia.
Qed.

Lemma matching_doctors_case_variant (sp sp' : DoctorSpecialty.t) :
  case_variant (DoctorSpecialty.specialty sp) (DoctorSpecialty.specialty sp') ->
  matching_doctors sp' = matching_doctors sp.
Proof.
  intros H. apply case_variant_lower in H. unfold matching_doctors.
  now rewrite H.
Qed.

Ltac not_elem_of_listed :=
  let Hin := fresh "Hin" in
  intros Hin;
  repeat (apply elem_of_cons in Hin as [Hin|Hin]; [discriminate Hin|]);
  now apply elem_of_nil in Hin.

Lemma matching_doctors_NoDup (sp : DoctorSpecialty.t) : NoDup (matching_doctors sp).
Proof.
  unfold matching_doctors, ALLOWED_DOCTORS. cbn [List.filter snd DoctorDetails.specialty].
  repeat match goal with
    | |- context [String.eqb ?a ?b] => destruct (String.eqb a b)
    end;
    cbn [List.map fst snd DoctorDetails.name DoctorDetails.specialty];
    repeat (apply NoDup_cons_2; [not_elem_of_listed|]); apply NoDup_nil_2.
Qed.

Lemma matching_doctors_In (sp : DoctorSpecialty.t) (e : DoctorEntry.t) :
  In e (matching_doctors sp)
  <-> exists (doc_id : string) (details : DoctorDetails.t),
        In (doc_id, details) ALLOWED_DOCTORS
        /\ case_variant (DoctorDetails.specialty details)
             (DoctorSpecialty.specialty sp)
        /\ e = DoctorEntry.mk doc_id (DoctorDetails.name details)
                 (DoctorDetails.specialty details).
Proof.
  unfold matching_doctors. rewrite in_map_iff. split.
  - intros ([doc_id details] & <- & Hin). apply filter_In in Hin as [Hin Heq].
    apply String.eqb_eq, case_variant_lower in Heq. eauto.
  - intros (doc_id & details & Hin & Hcv & ->). exists (doc_id, details).
    split; [reflexivity|]. apply filter_In. split; [exact Hin|].
    now apply String.eqb_eq, case_variant_lower.
Qed.

Lemma view_doctors_runs (sp : DoctorSpecialty.t) (w : World) :
  view_doctors sp w
  = (Return
       (match matching_doctors sp with
        | [] => ViewDoctorsResponse.Message
                  ("No doctors available for specialty: "
                     ++ DoctorSpecialty.specialty sp)
        | _ => ViewDoctorsResponse.AvailableDoctors (matching_doctors sp)
        end), w).
Proof. unfold view_doctors. now destruct (matching_doctors sp). Qed.

(** C8, as stated, fails: a case transformation can change the result. The
    input "neurologi", long s (U+017F), "t" lists no doctor, since [lower]
    keeps the long s; its upper-case form is "NEUROLOGIST", which lists
    Dr. Clara. *)
Lemma view_doctors_upper_changes_result :
  upper neurologist_with_long_s = Some "NEUROLOGIST"
  /\ lower neurologist_with_long_s = neurologist_with_long_s
  /\ matching_doctors (DoctorSpecialty.mk neurologist_with_long_s) = []
  /\ matching_doctors (DoctorSpecialty.mk "NEUROLOGIST")
     = [DoctorEntry.mk "D103" "Dr. Clara" "Neurologist"]
  /\ fst (view_doctors (DoctorSpecialty.mk neurologist_with_long_s)
            (fresh_world counting_tape))
     = Return (ViewDoctorsResponse.Message
                 ("No doctors available for specialty: " ++ neurologist_with_long_s))
  /\ fst (view_doctors (DoctorSpecialty.mk "NEUROLOGIST") (fresh_world counting_tape))
     = Return (ViewDoctorsResponse.AvailableDoctors
                 [DoctorEntry.mk "D103" "Dr. Clara" "Neurologist"]).
Proof. repeat split; vm_compute; reflexivity. Qed.

(** C8 (amended): for every specialty string the doctors returned are exactly
    those of the doctor directory whose specialty equals the input up to the
    case of ASCII letters, position by position and over the whole string,
    each listed once; the doctors returned for an input are the same as for
    any string that differs from it only in the case of ASCII letters, hence,
    for an input of ASCII characters only, as for its upper-case, lower-case
    and case-swapped forms; and the lookup never raises: with no match it
    returns a message, otherwise the list. *)
Theorem view_doctors_case_insensitive (sp sp' : DoctorSpecialty.t) (w : World) :
  (forall e : DoctorEntry.t,
     In e (matching_doctors sp)
     <-> exists (doc_id : string) (details : DoctorDetails.t),
           In (doc_id, details) ALLOWED_DOCTORS
           /\ case_variant (DoctorDetails.specialty details)
                (DoctorSpecialty.specialty sp)
           /\ e = DoctorEntry.mk doc_id (DoctorDetails.name details)
                    (DoctorDetails.specialty details))
  /\ NoDup (matching_doctors sp)
  /\ (case_variant (DoctorSpecialty.specialty sp) (DoctorSpecialty.specialty sp') ->
      matching_doctors sp' = matching_doctors sp)
  /\ (is_ascii (DoctorSpecialty.specialty sp) = true ->
      (exists u : string,
         upper (DoctorSpecialty.specialty sp) = Some u
         /\ matching_doctors (DoctorSpecialty.mk u) = matching_doctors sp)
      /\ matching_doctors (DoctorSpecialty.mk (lower (DoctorSpecialty.specialty sp)))
         = matching_doctors sp
      /\ (exists u : string,
            swapcase (DoctorSpecialty.specialty sp) = Some u
            /\ matching_doctors (DoctorSpecialty.mk u) = matching_doctors sp))
  /\ exists resp : ViewDoctorsResponse.t,
       view_doctors sp w = (Return resp, w)
       /\ (matching_doctors sp = [] ->
           resp = ViewDoctorsResponse.Message
                    ("No doctors available for specialty: "
                       ++ DoctorSpecialty.specialty sp))
       /\ (matching_doctors sp <> [] ->
           resp = ViewDoctorsResponse.AvailableDoctors (matching_doctors sp)).
Proof.
  split; [intros e; apply matching_doctors_In|].
  split; [apply matching_doctors_NoDup|].
  split; [apply matching_doctors_case_variant|].
  split.
  - intros Hascii.
    destruct (case_variant_upper_of _ Hascii) as (u & Hu & Hcv).
    destruct (case_variant_swapcase_of _ Hascii) as (v & Hv & Hcv').
    split; [exists u; split; [exact Hu|]; now apply matching_doctors_case_variant|].
    split; [apply matching_doctors_case_variant, case_variant_lower_of|].
    exists v. split; [exact Hv|]. now apply matching_doctors_case_variant.
  - eexists. split; [apply view_doctors_runs|].
    destruct (matching_doctors sp); split; congruence.
Qed.

Lemma view_doctors_case_insensitive_witness :
  case_variant "CARDIOLOGIST" "cArDiOlOgIsT"
  /\ is_ascii "CARDIOLOGIST" = true
  /\ matching_doctors (DoctorSpecialty.mk "cArDiOlOgIsT")
     = matching_doctors (DoctorSpecialty.mk "CARDIOLOGIST")
  /\ (exists u : string,
        swapcase "CARDIOLOGIST" = Some u
        /\ matching_doctors (DoctorSpecialty.mk u)
           = matching_doctors (DoctorSpecialty.mk "CARDIOLOGIST"))
  /\ matching_doctors (DoctorSpecialty.mk "CARDIOLOGIST")
     = [DoctorEntry.mk "D101" "Dr. Alice" "Cardiologist"].
Proof.
  assert (H : case_variant "CARDIOLOGIST" "cArDiOlOgIsT")
    by (apply case_variant_lower; reflexivity).
  destruct (view_doctors_case_insensitive
              (DoctorSpecialty.mk "CARDIOLOGIST")
              (DoctorSpecialty.mk "cArDiOlOgIsT")
              (fresh_world counting_tape))
    as (_ & _ & Hvariant & Hcase & _).
  split; [exact H|]. split; [reflexivity|]. split; [exact (Hvariant H)|].
  split; [exact (proj2 (proj2 (Hcase eq_refl)))|reflexivity].
Defined.

(** * Beyond the claims: the remaining handlers and whole runs *)

Example a_visit_runs :
  fst (serve requests_of_a_visit (initial_world (mkRandom counting_tape 0)))
  = [ Return (PatientAnswer (PatientValidation.mk "Patient ID is valid!" (Some "P001")));
      Return (DoctorsAnswer (ViewDoctorsResponse.AvailableDoctors
                               [DoctorEntry.mk "D101" "Dr. Alice" "Cardiologist"]));
      Return (BookingAnswer (BookingResponse.mk "Appointment booked successfully!"
                               "A1003" "P001" "D101" "2024-05-01" "2:00 PM"));
      Return (RescheduleAnswer (RescheduleResponse.mk
                                  "Appointment rescheduled successfully!" "A1003"
                                  "2024-05-02" "12:00 PM"));
      Raise (mkHTTPException 400 "Payment amount must be greater than zero.");
      Return (PaymentAnswer (PaymentResponse.mk "Payment successful!" "P002"
                               float_150 "T100024")) ].
Proof. vm_compute. reflexivity. Qed.

(** ** One request at a time *)

Lemma valid_booking_dec (booking : AppointmentBooking.t) :
  {valid_booking booking}
  + {AppointmentBooking.patient_id booking ∉ ALLOWED_PATIENTS}
  + {AppointmentBooking.patient_id booking ∈ ALLOWED_PATIENTS
     /\ dict_contains (AppointmentBooking.doctor_id booking) ALLOWED_DOCTORS = false}.
Proof.
  destruct (decide (AppointmentBooking.patient_id booking ∈ ALLOWED_PATIENTS)) as [Hp|Hp];
    [|left; right; exact Hp].
  destruct (dict_contains (AppointmentBooking.doctor_id booking) ALLOWED_DOCTORS) eqn:Hd.
  - left; left. now split.
  - right. now split.
Qed.

Lemma app_book_valid (booking : AppointmentBooking.t) (w : World) :
  valid_booking booking ->
  app (POST_book_appointment booking) w
  = (Return (BookingAnswer
               (BookingResponse.mk "Appointment booked successfully!"
                  ("A" ++ str (drawn_number w))
                  (AppointmentBooking.patient_id booking)
                  (AppointmentBooking.doctor_id booking)
                  (AppointmentBooking.date booking)
                  (drawn_slot booking_slots (advance w)))),
     mkWorld (<["A" ++ str (drawn_number w) := booked_record booking w]>
                (APPOINTMENTS w))
       (RANDOM (advance (advance w)))).
Proof.
  intros Hv. unfold app, bind. now rewrite (book_appointment_valid _ _ Hv).
Qed.

Lemma app_book_refused (booking : AppointmentBooking.t) (w : World) :
  ~ valid_booking booking ->
  exists detail : string,
    app (POST_book_appointment booking) w
    = (Raise (mkHTTPException HTTP_404_NOT_FOUND detail), w).
Proof.
  intros Hn. unfold app, bind.
  destruct (valid_booking_dec booking) as [[Hv|Hp]|[Hp Hd]]; [contradiction| |].
  - rewrite (book_appointment_unknown_patient _ _ Hp). eauto.
  - rewrite (book_appointment_unknown_doctor _ _ Hp Hd). eauto.
Qed.

Lemma app_reschedule_present (reschedule : RescheduleAppointment.t) (w : World) :
  RescheduleAppointment.appointment_id reschedule ∈ dom (APPOINTMENTS w) ->
  app (POST_reschedule_appointment reschedule) w
  = (Return (RescheduleAnswer
               (RescheduleResponse.mk "Appointment rescheduled successfully!"
                  (RescheduleAppointment.appointment_id reschedule)
                  (RescheduleAppointment.new_date reschedule)
                  (drawn_slot reschedule_slots w))),
     mkWorld
       (alter (Appointment.set_slot (drawn_slot reschedule_slots w))
          (RescheduleAppointment.appointment_id reschedule)
          (alter (Appointment.set_date (RescheduleAppointment.new_date reschedule))
             (RescheduleAppointment.appointment_id reschedule)
             (APPOINTMENTS w)))
       (RANDOM (advance w))).
Proof.
  intros Hin. unfold app, bind. now rewrite (reschedule_appointment_present _ _ Hin).
Qed.

Lemma app_reschedule_absent (reschedule : RescheduleAppointment.t) (w : World) :
  RescheduleAppointment.appointment_id reschedule ∉ dom (APPOINTMENTS w) ->
  app (POST_reschedule_appointment reschedule) w
  = (Raise (mkHTTPException HTTP_404_NOT_FOUND "Appointment not found."), w).
Proof.
  intros Hout. unfold app, bind. now rewrite (reschedule_appointment_absent _ _ Hout).
Qed.

Lemma app_pay (payment : Payment.t) (w : World) :
  (exists e : HTTPException,
     app (POST_pay_consultation payment) w = (Raise e, w)
     /\ (status_code e = HTTP_404_NOT_FOUND \/ status_code e = HTTP_400_BAD_REQUEST))
  \/ (exists r : PaymentResponse.t,
        app (POST_pay_consultation payment) w = (Return (PaymentAnswer r), advance w)).
Proof.
  unfold app, bind.
  destruct (decide (Payment.patient_id payment ∈ ALLOWED_PATIENTS)) as [Hp|Hp].
  - destruct (SFleb (Payment.amount payment) float_of_int_0) eqn:Hle.
    + rewrite (pay_consultation_not_positive _ _ Hp Hle). left. eauto.
    + rewrite (pay_consultation_accepted _ _ Hp Hle). right. eauto.
  - rewrite (pay_consultation_unknown_patient _ _ Hp). left. eauto.
Qed.

Lemma validate_patient_runs (patient : Patient.t) (w : World) :
  exists r : PatientValidation.t, validate_patient patient w = (Return r, w).
Proof. unfold validate_patient. case_bool_decide; eauto. Qed.

Lemma re_validate_patient_runs (patient : Patient.t) (w : World) :
  exists r : PatientValidation.t, re_validate_patient patient w = (Return r, w).
Proof. unfold re_validate_patient. case_bool_decide; eauto. Qed.

Lemma re_verify_doctor_runs (doctor_id : string) (w : World) :
  exists r : DoctorValidation.t, re_verify_doctor doctor_id w = (Return r, w).
Proof.
  unfold re_verify_doctor. destruct (dict_contains doctor_id ALLOWED_DOCTORS); eauto.
Qed.

(** The four read-only routes answer and leave the world alone. *)
Lemma app_read_only (req : Request) (w : World) :
  match req with
  | POST_validate_patient _ | POST_re_validate_patient _
  | POST_view_doctors _ | POST_re_verify_doctor _ => True
  | _ => False
  end ->
  exists r : Response,
    app req w = (Return r, w)
    /\ forall b : BookingResponse.t, r <> BookingAnswer b.
Proof.
  destruct req as [p|p|sp|d|b|r|p]; intros H; try contradiction; unfold app, bind.
  - destruct (validate_patient_runs p w) as [r ->]. eexists. split; [reflexivity|discriminate].
  - destruct (re_validate_patient_runs p w) as [r ->]. eexists. split; [reflexivity|discriminate].
  - rewrite view_doctors_runs. eexists. split; [reflexivity|discriminate].
  - destruct (re_verify_doctor_runs d w) as [r ->]. eexists. split; [reflexivity|discriminate].
Qed.

Lemma app_registry_step (req : Request) (w : World) :
  registry_step req w (fst (app req w)) (APPOINTMENTS (snd (app req w))).
Proof.
  destruct req as [p|p|sp|d|b|r|p].
  1-4: match goal with
       | |- context [app ?req ?w0] =>
           destruct (app_read_only req w0 I) as (x & -> & Hx)
       end; cbn [fst snd]; apply step_unchanged; [congruence|now left].
  - destruct (valid_booking_dec b) as [[Hv|Hp]|[Hp Hd]].
    + rewrite (app_book_valid _ _ Hv). cbn [fst snd APPOINTMENTS].
      now eapply (step_booked _ _ b
                    (BookingResponse.mk _ ("A" ++ str (drawn_number w)) _ _ _ _)).
    + destruct (app_book_refused b w) as [x ->]; [now intros [? ?]|].
      cbn [fst snd]. apply step_unchanged; [discriminate|right; eauto].
    + destruct (app_book_refused b w) as [x ->]; [intros [? ?]; congruence|].
      cbn [fst snd]. apply step_unchanged; [discriminate|right; eauto].
  - destruct (decide (RescheduleAppointment.appointment_id r ∈ dom (APPOINTMENTS w)))
      as [Hin|Hout].
    + rewrite (app_reschedule_present _ _ Hin). cbn [fst snd APPOINTMENTS].
      eapply (step_rescheduled _ _ r
                (RescheduleResponse.mk _ _ _ (drawn_slot reschedule_slots w)));
        [reflexivity|exact Hin|].
      apply (drawn_slot_in reschedule_slots). reflexivity.
    + rewrite (app_reschedule_absent _ _ Hout). cbn [fst snd].
      apply step_unchanged; [discriminate|now left].
  - destruct (app_pay p w) as [(e & -> & _)|(x & ->)]; cbn [fst snd].
    + apply step_unchanged; [discriminate|now left].
    + change (APPOINTMENTS (advance w)) with (APPOINTMENTS w).
      apply step_unchanged; [discriminate|now left].
Qed.

Lemma serve_cons (req : Request) (reqs : list Request) (w : World) :
  serve (req :: reqs) w
  = (fst (app req w) :: fst (serve reqs (snd (app req w))),
     snd (serve reqs (snd (app req w)))).
Proof.
  cbn [serve]. destruct (app req w) as [o w1]. cbn [fst snd].
  now destruct (serve reqs w1).
Qed.

(** A property of the registry that every single request keeps holds after
    any run. *)
Lemma serve_keeps (P : gmap string Appointment.t -> Prop) :
  (forall (req : Request) (w : World),
     P (APPOINTMENTS w) -> P (APPOINTMENTS (snd (app req w)))) ->
  forall (reqs : list Request) (w : World),
    P (APPOINTMENTS w) -> P (APPOINTMENTS (snd (serve reqs w))).
Proof.
  intros Hstep reqs. induction reqs as [|req reqs IH]; intros w Hw; [exact Hw|].
  rewrite serve_cons. cbn [snd]. apply IH, Hstep, Hw.
Qed.

(** ** The registry over the life of the process *)

Lemma app_grows (req : Request) (w : World) :
  dom (APPOINTMENTS w) ⊆ dom (APPOINTMENTS (snd (app req w)))
  /\ (size (APPOINTMENTS w) <= size (APPOINTMENTS (snd (app req w))))%nat
  /\ (size (APPOINTMENTS (snd (app req w)))
      <= size (APPOINTMENTS w) + (if is_booking req then 1 else 0))%nat.
Proof.
  destruct (app_registry_step req w) as [o _ _|b r -> _ _|rs r -> _ _].
  - split; [reflexivity|]. lia.
  - rewrite dom_insert_L, booked_size. split; [apply union_subseteq_r|].
    cbn [is_booking]. case_bool_decide; lia.
  - rewrite <- !size_dom, !dom_alter_L. split; [reflexivity|]. lia.
Qed.

(** X1: No request removes an appointment: along any run the set of identifiers
    in the registry only grows, and the number of records grows by at most
    one per booking request and by nothing for any other request. *)
Theorem serve_registry_grows (reqs : list Request) (w : World) :
  dom (APPOINTMENTS w) ⊆ dom (APPOINTMENTS (snd (serve reqs w)))
  /\ (size (APPOINTMENTS w) <= size (APPOINTMENTS (snd (serve reqs w))))%nat
  /\ (size (APPOINTMENTS (snd (serve reqs w)))
      <= size (APPOINTMENTS w) + List.length (List.filter is_booking reqs))%nat.
Proof.
  revert w. induction reqs as [|req reqs IH]; intros w.
  - cbn. split; [reflexivity|]. lia.
  - rewrite serve_cons. cbn [snd List.filter].
    destruct (IH (snd (app req w))) as (Hd & Hlo & Hhi).
    destruct (app_grows req w) as (Hd1 & Hlo1 & Hhi1).
    split; [now transitivity (dom (APPOINTMENTS (snd (app req w))))|].
    split; [lia|].
    destruct (is_booking req); cbn [List.length]; lia.
Qed.

Lemma app_keeps_registry_ok (req : Request) (w : World) :
  registry_ok (APPOINTMENTS w) -> registry_ok (APPOINTMENTS (snd (app req w))).
Proof.
  unfold registry_ok. intros Hok.
  destruct (app_registry_step req w) as [o _ _|b r -> [Hp Hd] Hid|rs r -> _ Hslot].
  - exact Hok.
  - apply map_Forall_insert_2; [|exact Hok].
    split; [exists (drawn_number w); split; [apply drawn_number_range|exact Hid]|].
    split; [exact Hp|]. split; [exact Hd|].
    cbn [booked_record Appointment.slot]. unfold known_slots.
    pose proof (drawn_slot_in booking_slots (advance w) eq_refl) as Hs.
    cbn [booking_slots fst snd] in Hs. cbn in Hs |- *. tauto.
  - intros k a Hk.
    destruct (decide (k = RescheduleAppointment.appointment_id rs)) as [->|Hne].
    + rewrite !lookup_alter_eq in Hk.
      destruct (APPOINTMENTS w !! RescheduleAppointment.appointment_id rs)
        as [a0|] eqn:Ha0; [|discriminate Hk].
      injection Hk as <-. destruct (Hok _ _ Ha0) as (Hkey & Hp & Hd & _).
      split; [exact Hkey|]. split; [exact Hp|]. split; [exact Hd|].
      cbn in Hslot |- *. tauto.
    + rewrite !lookup_alter_ne in Hk by congruence. exact (Hok _ _ Hk).
Qed.

(** X2: Starting from the empty registry, whatever requests are served, every
    stored record sits under an identifier made of the letter A and a number
    between 1000 and 9999, names a patient and a doctor of the directories,
    and carries one of the eight slots. *)
Theorem serve_registry_ok (reqs : list Request) (r : Random) :
  registry_ok (APPOINTMENTS (snd (serve reqs (initial_world r)))).
Proof.
  apply (serve_keeps registry_ok app_keeps_registry_ok).
  apply map_Forall_empty.
Qed.

Lemma appointment_key_listed (k : string) :
  appointment_key k ->
  In k (List.map (fun i : nat => "A" ++ str (1000 + Z.of_nat i)) (seq 0 (Z.to_nat 9000))).
Proof.
  intros (n & Hn & ->). destruct (between_offset _ _ _ Hn) as (i & Hi & ->).
  apply in_map_iff. exists i. split; [reflexivity|]. apply in_seq.
  change (9999 - 1000 + 1) with 9000 in Hi. lia.
Qed.

(** X3: Starting from the empty registry, the registry never holds more than
    9000 appointments, however many bookings are served. *)
Theorem serve_registry_bounded (reqs : list Request) (r : Random) :
  (size (APPOINTMENTS (snd (serve reqs (initial_world r)))) <= Z.to_nat 9000)%nat.
Proof.
  pose proof (serve_registry_ok reqs r) as Hok.
  set (m := APPOINTMENTS (snd (serve reqs (initial_world r)))) in *.
  rewrite <- length_map_to_list, <- (length_fmap fst (map_to_list m)).
  assert (Hlen : List.length
                    (List.map (fun i : nat => "A" ++ str (1000 + Z.of_nat i))
                       (seq 0 (Z.to_nat 9000)))
                  = Z.to_nat 9000)
    by (now rewrite List.length_map, List.length_seq).
  rewrite <- Hlen.
  apply NoDup_incl_length; [apply NoDup_ListNoDup, NoDup_fst_map_to_list|].
  intros k Hk. apply list_elem_of_In, list_elem_of_fmap in Hk as ([k' a] & -> & Hin).
  apply elem_of_map_to_list in Hin.
  apply appointment_key_listed. exact (proj1 (Hok _ _ Hin)).
Qed.

(** ** Failures *)

(** X4: A request that ends in an exception has changed nothing, neither the
    registry nor the generator; its status is 404, or 400 and then the
    request was a payment. *)
Theorem app_raise_changes_nothing
    (req : Request) (w w' : World) (e : HTTPException) :
  app req w = (Raise e, w') ->
  w' = w
  /\ (status_code e = HTTP_404_NOT_FOUND
      \/ (status_code e = HTTP_400_BAD_REQUEST
          /\ exists payment : Payment.t, req = POST_pay_consultation payment)).
Proof.
  intros E. destruct req as [p|p|sp|d|b|r|p].
  1-4: match type of E with
       | app ?req ?w0 = _ =>
           destruct (app_read_only req w0 I) as (x & Hx & _);
           rewrite Hx in E; discriminate E
       end.
  - destruct (valid_booking_dec b) as [[Hv|Hp]|[Hp Hd]].
    + rewrite (app_book_valid _ _ Hv) in E. discriminate E.
    + destruct (app_book_refused b w) as [x Hx]; [now intros [? ?]|].
      rewrite Hx in E. injection E as <- <-. now split; [|left].
    + destruct (app_book_refused b w) as [x Hx]; [intros [? ?]; congruence|].
      rewrite Hx in E. injection E as <- <-. now split; [|left].
  - destruct (decide (RescheduleAppointment.appointment_id r ∈ dom (APPOINTMENTS w)))
      as [Hin|Hout].
    + rewrite (app_reschedule_present _ _ Hin) in E. discriminate E.
    + rewrite (app_reschedule_absent _ _ Hout) in E. injection E as <- <-.
      now split; [|left].
  - destruct (app_pay p w) as [(e0 & He0 & Hcode)|(x & Hx)].
    + rewrite He0 in E. injection E as <- <-. split; [reflexivity|].
      destruct Hcode as [Hc|Hc]; [now left|right]. split; [exact Hc|eauto].
    + rewrite Hx in E. discriminate E.
Qed.

Lemma app_raise_changes_nothing_witness :
  app (POST_pay_consultation payment_P002_minus_5) world_after_counting
  = (Raise (mkHTTPException HTTP_400_BAD_REQUEST
              "Payment amount must be greater than zero."),
     world_after_counting)
  /\ world_after_counting = world_after_counting.
Proof.
  assert (E : app (POST_pay_consultation payment_P002_minus_5) world_after_counting
              = (Raise (mkHTTPException HTTP_400_BAD_REQUEST
                          "Payment amount must be greater than zero."),
                 world_after_counting)).
  { unfold app, bind.
    now rewrite (pay_consultation_not_positive payment_P002_minus_5
                   world_after_counting (proj1 valid_booking_P002_D102) eq_refl). }
  split; [exact E|].
  exact (proj1 (app_raise_changes_nothing _ _ _ _ E)).
Defined.

(** ** Who an appointment belongs to *)

Lemma app_keeps_parties (req : Request) (w : World) (k : string) :
  (forall r : BookingResponse.t,
     fst (app req w) = Return (BookingAnswer r) ->
     BookingResponse.appointment_id r <> k) ->
  parties <$> (APPOINTMENTS (snd (app req w)) !! k)
  = parties <$> (APPOINTMENTS w !! k).
Proof.
  intros Hk.
  destruct (app_registry_step req w) as [o _ _|b r _ _ _|rs r _ _ _].
  - reflexivity.
  - rewrite lookup_insert_ne; [reflexivity|]. now apply Hk.
  - destruct (decide (k = RescheduleAppointment.appointment_id rs)) as [->|Hne].
    + rewrite !lookup_alter_eq.
      now destruct (APPOINTMENTS w !! RescheduleAppointment.appointment_id rs).
    + now rewrite !lookup_alter_ne by congruence.
Qed.

(** X5: The patient and the doctor of an appointment stay what they are along
    any run in which no booking returns that appointment's identifier:
    rescheduling, payments and lookups never change them. *)
Theorem serve_keeps_parties (reqs : list Request) (w : World) (k : string) :
  (forall r : BookingResponse.t,
     In (Return (BookingAnswer r)) (fst (serve reqs w)) ->
     BookingResponse.appointment_id r <> k) ->
  parties <$> (APPOINTMENTS (snd (serve reqs w)) !! k)
  = parties <$> (APPOINTMENTS w !! k).
Proof.
  revert w. induction reqs as [|req reqs IH]; intros w Hk; [reflexivity|].
  rewrite serve_cons in Hk |- *. cbn [fst snd] in Hk |- *.
  rewrite IH.
  - apply app_keeps_parties. intros r Hr. apply Hk. left. now rewrite Hr.
  - intros r Hr. apply Hk. now right.
Qed.

Lemma serve_keeps_parties_witness :
  parties <$> (APPOINTMENTS
                 (snd (serve [ POST_reschedule_appointment reschedule_A1003;
                               POST_pay_consultation payment_P002_150;
                               POST_book_appointment booking_P002_D102 ]
                         world_after_counting)) !! "A1003")
  = Some ("P001", "D101").
Proof.
  rewrite (serve_keeps_parties
             [ POST_reschedule_appointment reschedule_A1003;
               POST_pay_consultation payment_P002_150;
               POST_book_appointment booking_P002_D102 ]
             world_after_counting "A1003").
  - vm_compute. reflexivity.
  - intros r Hr. vm_compute in Hr.
    destruct Hr as [Hr|[Hr|[Hr|[]]]]; try discriminate Hr.
    injection Hr as <-. cbn. discriminate.
Defined.

(** ** From booking to rescheduling *)

(** X6: The identifier a successful booking returns can be rescheduled at any
    later point of the run, whatever requests were served in between: the
    reschedule succeeds and the record then carries the new date and the slot
    of the reschedule response. *)
Theorem booked_appointment_stays_reschedulable
    (booking : AppointmentBooking.t) (w : World) (reqs : list Request)
    (new_date : string) :
  valid_booking booking ->
  exists (resp : BookingResponse.t) (w1 : World),
    book_appointment booking w = (Return resp, w1)
    /\ exists (resp2 : RescheduleResponse.t) (w3 : World) (a : Appointment.t),
         reschedule_appointment
           (RescheduleAppointment.mk (BookingResponse.appointment_id resp) new_date)
           (snd (serve reqs w1))
         = (Return resp2, w3)
         /\ RescheduleResponse.appointment_id resp2 = BookingResponse.appointment_id resp
         /\ APPOINTMENTS w3 !! BookingResponse.appointment_id resp = Some a
         /\ Appointment.date a = new_date
         /\ Appointment.slot a = RescheduleResponse.new_slot resp2
         /\ In (RescheduleResponse.new_slot resp2)
              ["9:30 AM"; "12:00 PM"; "3:00 PM"; "5:30 PM"].
Proof.
  intros Hv. eexists _, _. split; [apply book_appointment_valid, Hv|].
  cbn [BookingResponse.appointment_id].
  set (k := "A" ++ str (drawn_number w)).
  set (w1 := mkWorld _ _).
  assert (Hin : k ∈ dom (APPOINTMENTS (snd (serve reqs w1)))).
  { apply (proj1 (serve_registry_grows reqs w1)).
    subst w1. cbn [APPOINTMENTS]. rewrite dom_insert_L. apply elem_of_union_l.
    now apply elem_of_singleton. }
  pose proof Hin as Hlook. apply elem_of_dom in Hlook as [a0 Ha0].
  eexists _, _, _.
  split; [apply (reschedule_appointment_present (RescheduleAppointment.mk k new_date)), Hin|].
  cbn [RescheduleResponse.appointment_id RescheduleResponse.new_slot APPOINTMENTS
       RescheduleAppointment.appointment_id RescheduleAppointment.new_date].
  split; [reflexivity|]. rewrite !lookup_alter_eq, Ha0. cbn.
  split; [reflexivity|]. split; [reflexivity|]. split; [reflexivity|].
  apply (drawn_slot_in reschedule_slots). reflexivity.
Qed.

Lemma booked_appointment_stays_reschedulable_witness :
  valid_booking booking_P001_D101
  /\ exists (resp : BookingResponse.t) (w1 : World),
       book_appointment booking_P001_D101 (initial_world (mkRandom counting_tape 0))
       = (Return resp, w1)
       /\ exists (resp2 : RescheduleResponse.t) (w3 : World),
            reschedule_appointment
              (RescheduleAppointment.mk (BookingResponse.appointment_id resp) "2024-07-01")
              (snd (serve requests_of_a_visit w1))
            = (Return resp2, w3).
Proof.
  split; [exact valid_booking_P001_D101|].
  destruct (booked_appointment_stays_reschedulable booking_P001_D101
              (initial_world (mkRandom counting_tape 0)) requests_of_a_visit
              "2024-07-01" valid_booking_P001_D101)
    as (resp & w1 & Hbook & resp2 & w3 & a & Hres & _).
  exists resp, w1. split; [exact Hbook|]. exists resp2, w3. exact Hres.
Defined.

(** X7: Rescheduling the same appointment twice: both calls succeed and the
    registry ends up as if only the second had happened, with the date of the
    second request and the slot of the second response; the first leaves no
    trace and no other record is touched. *)
Theorem reschedule_twice_last_wins
    (k date1 date2 : string) (w : World) (a : Appointment.t) :
  APPOINTMENTS w !! k = Some a ->
  exists (resp1 resp2 : RescheduleResponse.t) (w1 w2 : World),
    reschedule_appointment (RescheduleAppointment.mk k date1) w = (Return resp1, w1)
    /\ reschedule_appointment (RescheduleAppointment.mk k date2) w1 = (Return resp2, w2)
    /\ APPOINTMENTS w2
       = <[k := Appointment.mk (Appointment.patient_id a) (Appointment.doctor_id a)
                  date2 (RescheduleResponse.new_slot resp2)]> (APPOINTMENTS w).
Proof.
  intros Ha.
  assert (Hin : k ∈ dom (APPOINTMENTS w)) by (apply elem_of_dom; eauto).
  eexists _, _, _, _.
  split; [apply (reschedule_appointment_present (RescheduleAppointment.mk k date1)), Hin|].
  split.
  - apply (reschedule_appointment_present (RescheduleAppointment.mk k date2)).
    cbn [APPOINTMENTS RescheduleAppointment.appointment_id]. now rewrite !dom_alter_L.
  - cbn [APPOINTMENTS RescheduleAppointment.appointment_id
         RescheduleAppointment.new_date RescheduleResponse.new_slot].
    apply map_eq. intros k'. destruct (decide (k' = k)) as [->|Hne].
    + rewrite !lookup_alter_eq, lookup_insert_eq, Ha. reflexivity.
    + rewrite !lookup_alter_ne, lookup_insert_ne by congruence. reflexivity.
Qed.

Lemma reschedule_twice_last_wins_witness :
  APPOINTMENTS world_after_counting !! "A1003"
  = Some (Appointment.mk "P001" "D101" "2024-05-01" "2:00 PM")
  /\ exists (resp1 resp2 : RescheduleResponse.t) (w1 w2 : World),
       reschedule_appointment (RescheduleAppointment.mk "A1003" "2024-05-02")
         world_after_counting
       = (Return resp1, w1)
       /\ reschedule_appointment (RescheduleAppointment.mk "A1003" "2024-05-09") w1
          = (Return resp2, w2)
       /\ APPOINTMENTS w2
          = <["A1003" := Appointment.mk "P001" "D101" "2024-05-09"
                           (RescheduleResponse.new_slot resp2)]>
              (APPOINTMENTS world_after_counting).
Proof.
  assert (Ha : APPOINTMENTS world_after_counting !! "A1003"
               = Some (Appointment.mk "P001" "D101" "2024-05-01" "2:00 PM"))
    by (vm_compute; reflexivity).
  split; [exact Ha|].
  exact (reschedule_twice_last_wins "A1003" "2024-05-02" "2024-05-09"
           world_after_counting _ Ha).
Defined.

(** ** Payments: the transaction identifier and the amounts let through *)

(** The decimal rendering of a number with [k + 1] digits has [k + 1]
    characters, all of them digits. *)

Lemma to_lu_add (n : N) (r : nat) :
  Unsigned.to_lu (n + N.of_nat r) = Nat.iter r Little.succ (Unsigned.to_lu n).
Proof.
  induction r as [|r IH]; [now rewrite N.add_0_r|].
  rewrite Nat2N.inj_succ, N.add_succ_r, Unsigned.to_lu_succ, IH. reflexivity.
Qed.

Lemma to_lu_last_digit (q r : N) :
  (0 < q)%N -> (r <= 9)%N ->
  nb_digits (Unsigned.to_lu (10 * q + r)) = S (nb_digits (Unsigned.to_lu q)).
Proof.
  intros Hq Hr. destruct q as [|p]; [lia|].
  rewrite <- (N2Nat.id r), to_lu_add, Unsigned.to_ldec_tenfold.
  assert (Hr' : (N.to_nat r <= 9)%nat) by lia. clear Hr.
  generalize dependent (N.to_nat r). intros i Hi.
  do 10 (destruct i as [|i]; [reflexivity|]). lia.
Qed.

Lemma to_lu_digits (k : nat) :
  forall n : N,
    (10 ^ N.of_nat k <= n < 10 ^ N.of_nat (S k))%N ->
    nb_digits (Unsigned.to_lu n) = S k.
Proof.
  induction k as [|k IH]; intros n Hn.
  - change (10 ^ N.of_nat 0)%N with 1%N in Hn.
    change (10 ^ N.of_nat 1)%N with 10%N in Hn.
    assert (Hi : (1 <= N.to_nat n < 10)%nat) by lia. clear Hn.
    rewrite <- (N2Nat.id n). generalize dependent (N.to_nat n). intros i Hi.
    destruct i as [|i]; [lia|].
    do 9 (destruct i as [|i]; [reflexivity|]). lia.
  - rewrite !Nat2N.inj_succ, !N.pow_succ_r' in Hn.
    rewrite Nat2N.inj_succ, N.pow_succ_r' in IH.
    pose proof (N.div_mod n 10 ltac:(lia)) as Hdm.
    pose proof (N.mod_lt n 10 ltac:(lia)) as Hmod.
    set (q := (n / 10)%N) in *. set (r := (n mod 10)%N) in *.
    set (P := (10 ^ N.of_nat k)%N) in *.
    rewrite Hdm. rewrite to_lu_last_digit by lia.
    f_equal. apply IH. lia.
Qed.

Lemma string_of_uint_digits (d : uint) :
  String.length (NilEmpty.string_of_uint d) = nb_digits d
  /\ all_digits (NilEmpty.string_of_uint d) = true.
Proof.
  induction d as [|d [IHl IHd]|d [IHl IHd]|d [IHl IHd]|d [IHl IHd]|d [IHl IHd]
                  |d [IHl IHd]|d [IHl IHd]|d [IHl IHd]|d [IHl IHd]|d [IHl IHd]];
    cbn [NilEmpty.string_of_uint String.length nb_digits all_digits];
    [split; reflexivity|..]; (split; [now rewrite IHl|exact IHd]).
Qed.

Lemma str_positive (p : positive) :
  str (Z.pos p) = NilEmpty.string_of_uint (Pos.to_uint p).
Proof.
  unfold str. cbn [Z.to_int NilZero.string_of_int NilZero.string_of_uint].
  pose proof (Unsigned.to_uint_nonnil p) as Hnil.
  now destruct (Pos.to_uint p).
Qed.

Lemma str_digits (k : nat) (n : Z) :
  10 ^ Z.of_nat k <= n < 10 ^ Z.of_nat (S k) ->
  String.length (str n) = S k /\ all_digits (str n) = true.
Proof.
  intros Hn.
  assert (Hpos : 0 < n) by (pose proof (Z.pow_pos_nonneg 10 (Z.of_nat k)); lia).
  destruct n as [|p|p]; try lia.
  rewrite str_positive. destruct (string_of_uint_digits (Pos.to_uint p)) as [Hlen Hdig].
  split; [|exact Hdig]. rewrite Hlen. unfold Pos.to_uint. rewrite nb_digits_rev.
  apply (to_lu_digits k (N.pos p)).
  change (Z.pos p) with (Z.of_N (N.pos p)) in Hn.
  rewrite <- !nat_N_Z in Hn. change 10 with (Z.of_N 10) in Hn.
  rewrite <- !N2Z.inj_pow in Hn. lia.
Qed.

Lemma str_six_digits (n : Z) : 100000 <= n <= 999999 -> six_digits (str n) = true.
Proof.
  intros H.
  assert (H' : 10 ^ Z.of_nat 5 <= n < 10 ^ Z.of_nat 6)
    by (change (10 ^ Z.of_nat 5) with 100000;
        change (10 ^ Z.of_nat 6) with 1000000; lia).
  destruct (str_digits 5 n H') as [Hlen Hdig].
  destruct (str n) as [|a [|b [|c [|d [|e [|f [|g s]]]]]]]; try discriminate Hlen.
  cbn [all_digits] in Hdig. cbn [six_digits].
  rewrite andb_true_r in Hdig. rewrite !andb_true_iff in Hdig |- *. tauto.
Qed.

(** X8: A payment that goes through returns the letter T followed by the six
    decimal digits of a number between 100000 and 999999, together with the
    patient identifier and the fixed success message. *)
Theorem pay_consultation_transaction_id
    (payment : Payment.t) (w w' : World) (resp : PaymentResponse.t) :
  pay_consultation payment w = (Return resp, w') ->
  exists n : Z,
    100000 <= n <= 999999
    /\ PaymentResponse.transaction_id resp = "T" ++ str n
    /\ six_digits (str n) = true
    /\ PaymentResponse.patient_id resp = Payment.patient_id payment
    /\ PaymentResponse.message resp = "Payment successful!".
Proof.
  intros E.
  destruct (decide (Payment.patient_id payment ∈ ALLOWED_PATIENTS)) as [Hp|Hp];
    [|rewrite (pay_consultation_unknown_patient _ _ Hp) in E; discriminate E].
  destruct (SFleb (Payment.amount payment) float_of_int_0) eqn:Hle;
    [rewrite (pay_consultation_not_positive _ _ Hp Hle) in E; discriminate E|].
  rewrite (pay_consultation_accepted _ _ Hp Hle) in E. injection E as <- <-.
  exists (100000 + next_word w mod 900000).
  pose proof (Z.mod_pos_bound (next_word w) 900000 ltac:(lia)) as Hb.
  cbn [PaymentResponse.transaction_id PaymentResponse.patient_id PaymentResponse.message].
  split; [lia|]. split; [reflexivity|]. split; [apply str_six_digits; lia|].
  split; reflexivity.
Qed.

Lemma pay_consultation_transaction_id_witness :
  exists n : Z,
    100000 <= n <= 999999
    /\ "T100003" = "T" ++ str n
    /\ six_digits (str n) = true.
Proof.
  destruct (pay_consultation_transaction_id payment_P002_150
              (initial_world (mkRandom counting_tape 0))
              (advance (initial_world (mkRandom counting_tape 0)))
              (PaymentResponse.mk "Payment successful!" "P002" float_150 "T100003"))
    as (n & Hn & Hid & Hdigits & _).
  - rewrite (pay_consultation_accepted payment_P002_150 _
               (proj1 valid_booking_P002_D102) eq_refl).
    vm_compute. reflexivity.
  - exists n. split; [exact Hn|]. split; [exact Hid|exact Hdigits].
Defined.

(** X9: With a known patient the amount check is the only gate, and it lets
    through every amount for which [amount <= 0] is false: that is the
    positive amounts, but also positive infinity and NaN, which compares
    false with everything. *)
Theorem pay_consultation_amount_gate (payment : Payment.t) (w : World) :
  Payment.patient_id payment ∈ ALLOWED_PATIENTS ->
  ((exists (resp : PaymentResponse.t) (w' : World),
      pay_consultation payment w = (Return resp, w')
      /\ PaymentResponse.amount_paid resp = Payment.amount payment)
   <-> SFleb (Payment.amount payment) float_of_int_0 = false)
  /\ (Payment.amount payment = S754_nan \/ Payment.amount payment = S754_infinity false ->
      exists (resp : PaymentResponse.t) (w' : World),
        pay_consultation payment w = (Return resp, w')
        /\ PaymentResponse.amount_paid resp = Payment.amount payment).
Proof.
  intros Hp.
  assert (Hiff : (exists (resp : PaymentResponse.t) (w' : World),
                    pay_consultation payment w = (Return resp, w')
                    /\ PaymentResponse.amount_paid resp = Payment.amount payment)
                 <-> SFleb (Payment.amount payment) float_of_int_0 = false).
  { split.
    - intros (resp & w' & E & _).
      destruct (SFleb (Payment.amount payment) float_of_int_0) eqn:Hle; [|reflexivity].
      rewrite (pay_consultation_not_positive _ _ Hp Hle) in E. discriminate E.
    - intros Hle. rewrite (pay_consultation_accepted _ _ Hp Hle). eauto. }
  split; [exact Hiff|].
  intros Hamount. apply Hiff. destruct Hamount as [-> | ->]; reflexivity.
Qed.

Lemma pay_consultation_amount_gate_witness :
  "P002" ∈ ALLOWED_PATIENTS
  /\ exists (resp : PaymentResponse.t) (w' : World),
       pay_consultation (Payment.mk "P002" S754_nan)
         (initial_world (mkRandom counting_tape 0))
       = (Return resp, w')
       /\ PaymentResponse.amount_paid resp = S754_nan.
Proof.
  split; [exact (proj1 valid_booking_P002_D102)|].
  exact (proj2 (pay_consultation_amount_gate (Payment.mk "P002" S754_nan)
                  (initial_world (mkRandom counting_tape 0))
                  (proj1 valid_booking_P002_D102))
           (or_introl eq_refl)).
Defined.

(** ** The validation routes and the gates of the mutating ones *)

Lemma allowed_patients_listed (p : string) :
  p ∈ ALLOWED_PATIENTS <-> In p ["P001"; "P002"; "P003"; "P004"].
Proof.
  unfold ALLOWED_PATIENTS. rewrite !elem_of_union, !elem_of_singleton. cbn.
  intuition congruence.
Qed.

Lemma allowed_doctors_listed (d : string) :
  dict_contains d ALLOWED_DOCTORS = true <-> In d ["D101"; "D102"; "D103"; "D104"].
Proof. apply dict_contains_keys. Qed.

(** X10: [validate_patient] and [re_validate_patient] never raise and change
    nothing; both hand the identifier back exactly when it is one of the four
    patients of the directory, and no identifier otherwise, so the two always
    agree; only the wording of the message differs. *)
Theorem validate_patient_answers (patient : Patient.t) (w : World) :
  exists r r' : PatientValidation.t,
    validate_patient patient w = (Return r, w)
    /\ re_validate_patient patient w = (Return r', w)
    /\ PatientValidation.patient_id r = PatientValidation.patient_id r'
    /\ (In (Patient.patient_id patient) ["P001"; "P002"; "P003"; "P004"] ->
        PatientValidation.patient_id r = Some (Patient.patient_id patient)
        /\ PatientValidation.message r = "Patient ID is valid!"
        /\ PatientValidation.message r' = "Re-entered Patient ID is valid!")
    /\ (~ In (Patient.patient_id patient) ["P001"; "P002"; "P003"; "P004"] ->
        PatientValidation.patient_id r = None
        /\ PatientValidation.message r = "Patient ID is invalid!"
        /\ PatientValidation.message r' = "Re-entered Patient ID is invalid!").
Proof.
  unfold validate_patient, re_validate_patient.
  destruct (decide (Patient.patient_id patient ∈ ALLOWED_PATIENTS)) as [Hp|Hp].
  - rewrite (bool_decide_eq_true_2 _ Hp). apply allowed_patients_listed in Hp.
    eexists _, _. repeat (split; [reflexivity|]).
    split; intros H; [repeat split|contradiction].
  - rewrite (bool_decide_eq_false_2 _ Hp). rewrite allowed_patients_listed in Hp.
    eexists _, _. repeat (split; [reflexivity|]).
    split; intros H; [contradiction|repeat split].
Qed.

Lemma validate_patient_answers_witness :
  In "P003" ["P001"; "P002"; "P003"; "P004"]
  /\ exists r : PatientValidation.t,
       validate_patient (Patient.mk "P003") world_after_counting
       = (Return r, world_after_counting)
       /\ PatientValidation.patient_id r = Some "P003".
Proof.
  assert (H : In "P003" ["P001"; "P002"; "P003"; "P004"]) by (cbn; tauto).
  split; [exact H|].
  destruct (validate_patient_answers (Patient.mk "P003") world_after_counting)
    as (r & r' & Hrun & _ & _ & Hvalid & _).
  exists r. split; [exact Hrun|]. exact (proj1 (Hvalid H)).
Defined.

(** X11: The patient gate of booking and of payment is the check of
    [validate_patient]: an identifier is refused by either with
    "Patient ID not found." exactly when [validate_patient] hands no
    identifier back. *)
Theorem patient_gates_agree
    (p doctor_id date : string) (amount : float) (w : World) :
  (book_appointment (AppointmentBooking.mk p doctor_id date) w
   = (Raise (mkHTTPException HTTP_404_NOT_FOUND "Patient ID not found."), w)
   <-> validate_patient_rejects p w)
  /\ (pay_consultation (Payment.mk p amount) w
      = (Raise (mkHTTPException HTTP_404_NOT_FOUND "Patient ID not found."), w)
      <-> validate_patient_rejects p w).
Proof.
  unfold validate_patient_rejects, validate_patient. cbn [Patient.patient_id].
  destruct (decide (p ∈ ALLOWED_PATIENTS)) as [Hp|Hp].
  - rewrite (bool_decide_eq_true_2 _ Hp). split; split.
    + intros E.
      destruct (dict_contains doctor_id ALLOWED_DOCTORS) eqn:Hd.
      * rewrite book_appointment_valid in E by now split. discriminate E.
      * rewrite book_appointment_unknown_doctor in E by assumption. discriminate E.
    + intros (r & [= <-] & Hr). discriminate Hr.
    + intros E.
      destruct (SFleb amount float_of_int_0) eqn:Hle.
      * rewrite pay_consultation_not_positive in E by assumption. discriminate E.
      * rewrite pay_consultation_accepted in E by assumption. discriminate E.
    + intros (r & [= <-] & Hr). discriminate Hr.
  - rewrite (bool_decide_eq_false_2 _ Hp). split; split.
    + intros _. eauto.
    + intros _. now apply book_appointment_unknown_patient.
    + intros _. eauto.
    + intros _. now apply pay_consultation_unknown_patient.
Qed.

Lemma patient_gates_agree_witness :
  validate_patient_rejects "P999" world_after_counting
  /\ book_appointment (AppointmentBooking.mk "P999" "D101" "2024-05-01")
       world_after_counting
     = (Raise (mkHTTPException HTTP_404_NOT_FOUND "Patient ID not found."),
        world_after_counting).
Proof.
  assert (H : validate_patient_rejects "P999" world_after_counting)
    by (eexists; split; reflexivity).
  split; [exact H|].
  exact (proj2 (proj1 (patient_gates_agree "P999" "D101" "2024-05-01" float_150
                         world_after_counting)) H).
Defined.

(** X12: [re_verify_doctor] never raises and changes nothing; it hands the
    identifier back exactly when it is a key of the doctor directory; and for
    a known patient a booking goes through exactly when [re_verify_doctor]
    accepts its doctor identifier. *)
Theorem re_verify_doctor_answers (doctor_id p date : string) (w : World) :
  exists r : DoctorValidation.t,
    re_verify_doctor doctor_id w = (Return r, w)
    /\ (DoctorValidation.doctor_id r = Some doctor_id
        <-> In doctor_id ["D101"; "D102"; "D103"; "D104"])
    /\ (DoctorValidation.doctor_id r = None
        <-> ~ In doctor_id ["D101"; "D102"; "D103"; "D104"])
    /\ (p ∈ ALLOWED_PATIENTS ->
        ((exists (resp : BookingResponse.t) (w' : World),
            book_appointment (AppointmentBooking.mk p doctor_id date) w = (Return resp, w'))
         <-> DoctorValidation.doctor_id r = Some doctor_id)).
Proof.
  unfold re_verify_doctor.
  pose proof (allowed_doctors_listed doctor_id) as Hlisted.
  destruct (dict_contains doctor_id ALLOWED_DOCTORS) eqn:Hd; eexists;
    (split; [reflexivity|]); cbn [DoctorValidation.doctor_id].
  - assert (Hin : In doctor_id ["D101"; "D102"; "D103"; "D104"]) by now apply Hlisted.
    split; [tauto|]. split; [split; [discriminate|tauto]|].
    intros Hp. split; [reflexivity|]. intros _.
    rewrite book_appointment_valid by now split. eauto.
  - assert (Hout : ~ In doctor_id ["D101"; "D102"; "D103"; "D104"])
      by (intros Hin; apply Hlisted in Hin; discriminate Hin).
    split; [split; [discriminate|tauto]|]. split; [tauto|].
    intros Hp. split; [|discriminate].
    intros (resp & w' & E).
    rewrite book_appointment_unknown_doctor in E by assumption. discriminate E.
Qed.

Lemma re_verify_doctor_answers_witness :
  "P001" ∈ ALLOWED_PATIENTS
  /\ exists (resp : BookingResponse.t) (w' : World),
       book_appointment (AppointmentBooking.mk "P001" "D104" "2024-08-01")
         world_after_counting
       = (Return resp, w').
Proof.
  split; [exact (proj1 valid_booking_P001_D101)|].
  destruct (re_verify_doctor_answers "D104" "P001" "2024-08-01" world_after_counting)
    as (r & Hrun & _ & _ & Hbook).
  apply (Hbook (proj1 valid_booking_P001_D101)).
  injection Hrun as <-. reflexivity.
Defined.

(** ** From the doctor list to a booking *)

Lemma case_variant_length (s t : string) :
  case_variant s t -> String.length s = String.length t.
Proof. induction 1 as [|a b s t _ _ IH]; cbn [String.length]; congruence. Qed.

Lemma matching_doctors_at_most_one (sp : DoctorSpecialty.t) :
  (List.length (matching_doctors sp) <= 1)%nat.
Proof.
  unfold matching_doctors, ALLOWED_DOCTORS.
  cbn [List.filter snd DoctorDetails.specialty].
  change (lower "Cardiologist") with "cardiologist".
  change (lower "Dermatologist") with "dermatologist".
  change (lower "Neurologist") with "neurologist".
  change (lower "Orthopedic") with "orthopedic".
  repeat match goal with
    | |- context [String.eqb ?a ?b] => destruct (String.eqb_spec a b)
    end;
    cbn [List.map List.length]; try lia; congruence.
Qed.

(** X13: Every doctor [view_doctors] lists is an entry of the directory, copied
    with its name and specialty, whose specialty is as long as the input (no
    prefix or substring match); [re_verify_doctor] accepts its identifier, and
    with a known patient a booking for it goes through. At most one doctor is
    listed for any input. *)
Theorem listed_doctors_are_bookable
    (sp : DoctorSpecialty.t) (e : DoctorEntry.t) (p date : string) (w : World) :
  (List.length (matching_doctors sp) <= 1)%nat
  /\ (In e (matching_doctors sp) ->
      In (DoctorEntry.doctor_id e,
          DoctorDetails.mk (DoctorEntry.name e) (DoctorEntry.specialty e))
        ALLOWED_DOCTORS
      /\ String.length (DoctorEntry.specialty e)
         = String.length (DoctorSpecialty.specialty sp)
      /\ re_verify_doctor (DoctorEntry.doctor_id e) w
         = (Return (DoctorValidation.mk "Re-entered Doctor ID is valid!"
                      (Some (DoctorEntry.doctor_id e))), w)
      /\ (p ∈ ALLOWED_PATIENTS ->
          exists (resp : BookingResponse.t) (w' : World),
            book_appointment (AppointmentBooking.mk p (DoctorEntry.doctor_id e) date) w
            = (Return resp, w')
            /\ BookingResponse.doctor_id resp = DoctorEntry.doctor_id e)).
Proof.
  split; [apply matching_doctors_at_most_one|].
  intros Hin. apply matching_doctors_In in Hin as (doc_id & details & Hdir & Hcv & ->).
  cbn [DoctorEntry.doctor_id DoctorEntry.name DoctorEntry.specialty].
  assert (Hd : dict_contains doc_id ALLOWED_DOCTORS = true).
  { apply dict_contains_keys, in_map_iff. now exists (doc_id, details). }
  split; [now destruct details|].
  split; [now apply case_variant_length|].
  split; [unfold re_verify_doctor; now rewrite Hd|].
  intros Hp. rewrite book_appointment_valid by now split. eauto.
Qed.

Lemma listed_doctors_are_bookable_witness :
  In (DoctorEntry.mk "D102" "Dr. Bob" "Dermatologist")
    (matching_doctors (DoctorSpecialty.mk "DERMATOLOGIST"))
  /\ "P004" ∈ ALLOWED_PATIENTS
  /\ exists (resp : BookingResponse.t) (w' : World),
       book_appointment (AppointmentBooking.mk "P004" "D102" "2024-09-01")
         world_after_counting
       = (Return resp, w')
       /\ BookingResponse.doctor_id resp = "D102".
Proof.
  assert (Hin : In (DoctorEntry.mk "D102" "Dr. Bob" "Dermatologist")
                  (matching_doctors (DoctorSpecialty.mk "DERMATOLOGIST")))
    by (left; reflexivity).
  assert (Hp : "P004" ∈ ALLOWED_PATIENTS)
    by (apply known_patient; vm_compute; reflexivity).
  split; [exact Hin|]. split; [exact Hp|].
  destruct (listed_doctors_are_bookable (DoctorSpecialty.mk "DERMATOLOGIST")
              (DoctorEntry.mk "D102" "Dr. Bob" "Dermatologist")
              "P004" "2024-09-01" world_after_counting)
    as (_ & Hlisted).
  exact (proj2 (proj2 (proj2 (Hlisted Hin))) Hp).
Defined.
